(** * network-monitor: the dashboard's front-end controller

    A shallow embedding of [static/js/app.js] (alert tone, quality watcher,
    the afterSwap hook) and of the chart script (chart registry, short-term
    and long-term polling, score panel, period selector), with the
    properties of the controller stated and proved over it.

    JavaScript values are modelled as follows.
    - A score is an integer, a [Z]; a measured percentage is a [Q] (every
      finite double is a rational, and [<], [>] on finite doubles are the
      rational comparisons).  [NaN], [undefined] and [null] are an absent
      value.
    - A string is a [string]; its characters are code units below 256.
    - Module-level [let] variables are fields of a state record, and a
      function that reads or writes them is a computation in the monad [M]
      below: it returns or throws, and keeps the state it reached either way.
    - An [async] function is split at its first [await]: the part that runs
      in the caller's turn ([_start]) and the part that runs once the fetch
      has settled ([_resume]), which receives the settled result. *)

From Stdlib Require Import ZArith QArith Lqa String Ascii List Lia.
From stdpp Require Import base option list gmap strings pretty.
Import ListNotations.

Local Open Scope string_scope.
Local Open Scope list_scope.
Local Open Scope Z_scope.

(** ** Computations that may throw, over a mutable state *)

Inductive exn : Type :=
| TypeError (what : string)     (* property access on undefined or null *)
| NetworkError                  (* fetch() rejected *)
| SyntaxError                   (* response.json() rejected *)
| DeviceError (what : string).  (* the audio back end refused an operation *)

Inductive outcome (A : Type) : Type :=
| Returned (a : A)
| Threw (e : exn).
Arguments Returned {A} a.
Arguments Threw {A} e.

Definition M (S A : Type) : Type := S -> outcome A * S.

#[global] Instance M_ret {S} : MRet (M S) := fun A a s => (Returned a, s).

#[global] Instance M_bind {S} : MBind (M S) := fun A B k m s =>
  match m s with
  | (Returned a, s') => k a s'
  | (Threw e, s') => (Threw e, s')
  end.

#[global] Instance M_throw {S} : MThrow exn (M S) := fun A e s => (Threw e, s).

Definition get {S} : M S S := fun s => (Returned s, s).
Definition modify {S} (f : S -> S) : M S unit := fun s => (Returned tt, f s).

(** [try { body } catch (error) { handler(error) }] *)
Definition try_catch {S A} (body : M S A) (handler : exn -> M S A) : M S A :=
  fun s =>
    match body s with
    | (Returned a, s') => (Returned a, s')
    | (Threw e, s') => handler e s'
    end.

Definition when {S} (b : bool) (m : M S unit) : M S unit :=
  if b then m else mret tt.

Definition exec {S A} (m : M S A) (s : S) : S := snd (m s).
Definition result {S A} (m : M S A) (s : S) : outcome A := fst (m s).

(** ** static/js/app.js *)

Module App.

(** The eleven calls into the Web Audio API that [playAlertSound] makes, in
    source order. *)
Inductive audio_op : Type :=
| NewAudioContext          (* new (window.AudioContext || window.webkitAudioContext)() *)
| CreateOscillator
| CreateGain
| OscillatorConnect
| GainConnect
| SetFrequency
| SetType
| GainSetValueAtTime
| GainExponentialRamp
| OscillatorStart
| OscillatorStop.

(** What the script does to the outside world. *)
Inductive effect : Type :=
| ConsoleWarn (msg : string) (score : Z)
| ConsoleError (msg : string) (e : exn)
| Audio (op : audio_op).

Record app : Type := mkApp {
  audioContext : bool;          (* false: still null *)
  lastQualityScore : Z;
  effects : list effect
}.

(** [let audioContext = null;]  [let lastQualityScore = 100;] *)
Definition init : app :=
  {| audioContext := false; lastQualityScore := 100; effects := [] |}.

Definition emit (e : effect) : M app unit :=
  modify (fun st => {| audioContext := audioContext st;
                       lastQualityScore := lastQualityScore st;
                       effects := effects st ++ [e] |}).

Definition set_audioContext (b : bool) : M app unit :=
  modify (fun st => {| audioContext := b;
                       lastQualityScore := lastQualityScore st;
                       effects := effects st |}).

Definition set_lastQualityScore (score : Z) : M app unit :=
  modify (fun st => {| audioContext := audioContext st;
                       lastQualityScore := score;
                       effects := effects st |}).

Section AlertTone.
(** The audio back end of the host: [refuses op] holds when the call [op]
    throws (no constructor on [window], no output device, ...). *)
Variable refuses : audio_op -> bool.

Definition perform (op : audio_op) : M app unit :=
  emit (Audio op) ;;
  if refuses op then mthrow (DeviceError "audio") else mret tt.

Definition playAlertSound : M app unit :=
  st ← get ;
  (if negb (audioContext st)
   then perform NewAudioContext ;; set_audioContext true
   else mret tt) ;;
  perform CreateOscillator ;;
  perform CreateGain ;;
  perform OscillatorConnect ;;
  perform GainConnect ;;
  perform SetFrequency ;;
  perform SetType ;;
  perform GainSetValueAtTime ;;
  perform GainExponentialRamp ;;
  perform OscillatorStart ;;
  perform OscillatorStop.

(** [perform] over a list of calls, in sequence; the tail of
    [playAlertSound] is [perform_all synthesis_calls]. *)
Fixpoint perform_all (ops : list audio_op) : M app unit :=
  match ops with
  | [] => mret tt
  | [op] => perform op
  | op :: rest => perform op ;; perform_all rest
  end.
End AlertTone.

(** [console.warn('Connection quality dropped to:', score)] *)
Definition dropped_to (score : Z) : effect :=
  ConsoleWarn "Connection quality dropped to:" score.

(** The synthesis calls of [playAlertSound], after the context exists. *)
Definition synthesis_calls : list audio_op :=
  [CreateOscillator; CreateGain; OscillatorConnect; GainConnect; SetFrequency;
   SetType; GainSetValueAtTime; GainExponentialRamp; OscillatorStart;
   OscillatorStop].

(** The calls one invocation makes when nothing fails: the constructor only
    while [audioContext] is still null. *)
Definition playAlertSound_calls (st : app) : list audio_op :=
  (if audioContext st then [] else [NewAudioContext]) ++ synthesis_calls.

(** The calls of [ops] that are reached: all up to the first refused one. *)
Fixpoint attempted (refuses : audio_op -> bool) (ops : list audio_op) : list audio_op :=
  match ops with
  | [] => []
  | op :: rest => op :: (if refuses op then [] else attempted refuses rest)
  end.

(** A host without a usable [AudioContext] constructor. *)
Definition no_audio_constructor (op : audio_op) : bool :=
  match op with NewAudioContext => true | _ => false end.

(** Between [before] and [after] some call into the audio API was made. *)
Definition tone_played (before after : app) : Prop :=
  exists op, Audio op ∈ drop (length (effects before)) (effects after).

(** [checkForAlerts]: the call to [playAlertSound] is commented out in the
    source, so the body only warns on the console. *)
Definition checkForAlerts (score : Z) : M app unit :=
  st ← get ;
  when ((50 <=? lastQualityScore st) && (score <? 50))
       (emit (ConsoleWarn "Connection quality dropped to:" score)) ;;
  set_lastQualityScore score.

(** Successive observations, one call each. *)
Fixpoint observe_all (scores : list Z) : M app unit :=
  match scores with
  | [] => mret tt
  | score :: rest => checkForAlerts score ;; observe_all rest
  end.

(** The code unit of a character. *)
Definition code (c : ascii) : Z := Z.of_N (N_of_ascii c).

(** White space and line terminators below 256: TAB, LF, VT, FF, CR, SP and
    NBSP. *)
Definition is_white_space (c : ascii) : bool :=
  let n := code c in
  ((9 <=? n) && (n <=? 13)) || (n =? 32) || (n =? 160).

Fixpoint trim_start (s : string) : string :=
  match s with
  | String c rest => if is_white_space c then trim_start rest else s
  | EmptyString => EmptyString
  end.

(** The value of [c] as a digit in base [radix], if it is one. *)
Definition digit_value (radix : Z) (c : ascii) : option Z :=
  let n := code c in
  let v := if (48 <=? n) && (n <=? 57) then Some (n - 48)
           else if (97 <=? n) && (n <=? 122) then Some (n - 87)
           else if (65 <=? n) && (n <=? 90) then Some (n - 55)
           else None in
  match v with
  | Some d => if d <? radix then Some d else None
  | None => None
  end.

(** The number written by the longest run of digits at the start of [s];
    [acc] is [None] until a digit was read. *)
Fixpoint digits_value (radix : Z) (s : string) (acc : option Z) : option Z :=
  match s with
  | String c rest =>
      match digit_value radix c with
      | Some d => digits_value radix rest (Some (radix * default 0 acc + d))
      | None => acc
      end
  | EmptyString => acc
  end.

Definition read_sign (s : string) : Z * string :=
  match s with
  | String "-" rest => (-1, rest)
  | String "+" rest => (1, rest)
  | _ => (1, s)
  end.

Definition read_radix (s : string) : Z * string :=
  match s with
  | String "0" (String "x" rest) => (16, rest)
  | String "0" (String "X" rest) => (16, rest)
  | _ => (10, s)
  end.

(** [parseInt(string)] with no radix.  [None] is [NaN].  Leading white space
    is skipped, one sign is read, a [0x]/[0X] prefix selects base 16, and the
    longest run of digits is converted; what follows the run is ignored.
    Values are exact here; the source rounds to a double above 2^53. *)
Definition parseInt (input : string) : option Z :=
  let (sign, s) := read_sign (trim_start input) in
  let (radix, s) := read_radix s in
  Z.mul sign <$> digits_value radix s None.

(** [n || d] on a number: [NaN] and zero are falsy. *)
Definition or_default (n : option Z) (d : Z) : Z :=
  match n with
  | Some 0 => d
  | Some v => v
  | None => d
  end.

(** [const score = parseInt(qualityScore.textContent) || 100;] *)
Definition afterSwap_score (textContent : string) : Z :=
  or_default (parseInt textContent) 100.

(** The [htmx:afterSwap] listener.  [qualityScore] is the text of the first
    [.quality-score] element ([None] when [querySelector] finds none) and
    [target_id] is [event.target.id]. *)
Definition htmx_afterSwap (qualityScore : option string) (target_id : string)
  : M app unit :=
  match qualityScore with
  | Some textContent =>
      if String.eqb target_id "quality-display"
      then checkForAlerts (afterSwap_score textContent)
      else mret tt
  | None => mret tt
  end.

(** Counting what happened: the alerts raised and the audio contexts
    constructed so far. *)
Definition is_warning (e : effect) : bool :=
  match e with ConsoleWarn _ _ => true | _ => false end.

Definition warnings (st : app) : nat :=
  length (List.filter is_warning (effects st)).

Definition is_construction (e : effect) : bool :=
  match e with Audio NewAudioContext => true | _ => false end.

Definition constructions (st : app) : nat :=
  length (List.filter is_construction (effects st)).

(** [n] invocations of [playAlertSound], each from a caller of its own: a
    throw ends that invocation and the next one starts from the state it
    left. *)
Fixpoint play_times (refuses : audio_op -> bool) (n : nat) (st : app) : app :=
  match n with
  | O => st
  | S k => play_times refuses k (exec (playAlertSound refuses) st)
  end.

(** [Number.MAX_SAFE_INTEGER]: up to it in magnitude every integer is a
    double, so that the number [parseInt] returns is the integer it read. *)
Definition MAX_SAFE_INTEGER : Z := 2 ^ 53 - 1.

(** Text shapes the afterSwap hook meets: white space only, and text that
    starts with a decimal digit. *)
Fixpoint all_white_space (s : string) : bool :=
  match s with
  | String c rest => is_white_space c && all_white_space rest
  | EmptyString => true
  end.

Definition starts_with_digit (s : string) : bool :=
  match s with
  | String c _ => match digit_value 10 c with Some _ => true | None => false end
  | EmptyString => false
  end.

End App.

(** ** The chart script *)

Module Charts.

(** *** Data *)

(** One entry of a JSON series: a label, a measurement or [null]. *)
Inductive cell : Type :=
| Str (s : string)
| Num (q : Q)
| Null.

(** A parsed response body is an object whose properties are arrays:
    [data !! "ping"] is [data.ping], and [None] is [undefined]. *)
Abbreviation payload := (gmap string (list cell)).

(** How the two awaits of a poll settle. *)
Inductive settled (A : Type) : Type :=
| Rejected          (* await fetch(...) threw *)
| NotJson           (* await response.json() threw *)
| Body (data : A).
Arguments Rejected {A}.
Arguments NotJson {A}.
Arguments Body {A} data.

(** A chart instance: [data.labels], the [data] array of each dataset and
    the number of [update('none')] redraws so far. *)
Record chart : Type := mkChart {
  labels : option (list cell);
  datasets : list (option (list cell));
  redraws : nat
}.

(** What a DOM element holds, as far as the script writes it. *)
Inductive markup : Type :=
| Stats (record_count : Z) (hours_analyzed : Q) (ping_avg_ms : Q) (loss_events : Z).

Record element : Type := mkElement {
  className : list string;      (* class tokens, in order *)
  textContent : string;
  style_width : string;
  innerHTML : option markup     (* None: as the page shipped it *)
}.

Record button : Type := mkButton {
  classList : list string;
  dataset_period : option string   (* data-period; None when not set *)
}.

(** One entry of [data.details]. *)
Record detail : Type := mkDetail {
  detail_score : option Z;
  avg_ms : option Q;
  events : option Z
}.

(** Body of [/api/longterm-score]. *)
Record score_data : Type := mkScore {
  grade : string;
  score : Z;
  message : string;
  record_count : Z;
  hours_analyzed : Q;
  details : option (gmap string detail)
}.

(** The page: the chart variables that are bound (by variable name), the
    active period, the elements by id, the [.period-btn] controls in
    document order, and what was requested and logged. *)
Record page : Type := mkPage {
  charts : gmap string chart;
  currentPeriod : string;
  elements : gmap string element;
  buttons : list button;
  requests : list string;
  console : list (string * exn)
}.

(** [let currentPeriod = 'day';] and no chart bound yet. *)
Definition load (els : gmap string element) (btns : list button) : page :=
  {| charts := ∅; currentPeriod := "day"; elements := els; buttons := btns;
     requests := []; console := [] |}.

Definition set_charts (f : gmap string chart -> gmap string chart) (p : page) : page :=
  {| charts := f (charts p); currentPeriod := currentPeriod p;
     elements := elements p; buttons := buttons p;
     requests := requests p; console := console p |}.

Definition set_currentPeriod (period : string) (p : page) : page :=
  {| charts := charts p; currentPeriod := period;
     elements := elements p; buttons := buttons p;
     requests := requests p; console := console p |}.

Definition set_elements (f : gmap string element -> gmap string element) (p : page) : page :=
  {| charts := charts p; currentPeriod := currentPeriod p;
     elements := f (elements p); buttons := buttons p;
     requests := requests p; console := console p |}.

Definition set_buttons (f : list button -> list button) (p : page) : page :=
  {| charts := charts p; currentPeriod := currentPeriod p;
     elements := elements p; buttons := f (buttons p);
     requests := requests p; console := console p |}.

(** [fetch(url)] *)
Definition fetch (url : string) : M page unit :=
  modify (fun p =>
    {| charts := charts p; currentPeriod := currentPeriod p;
       elements := elements p; buttons := buttons p;
       requests := requests p ++ [url]; console := console p |}).

(** [console.error(msg, error)] *)
Definition console_error (msg : string) (e : exn) : M page unit :=
  modify (fun p =>
    {| charts := charts p; currentPeriod := currentPeriod p;
       elements := elements p; buttons := buttons p;
       requests := requests p; console := console p ++ [(msg, e)] |}).

(** [const response = await fetch(...); const data = await response.json();] *)
Definition await {A} (r : settled A) : M page A :=
  match r with
  | Rejected => mthrow NetworkError
  | NotJson => mthrow SyntaxError
  | Body data => mret data
  end.

(** *** Packet-loss bar colour *)

(** [context.raw || 0]: an absent value and zero give 0. *)
Definition raw_or_0 (raw : option Q) : Q :=
  match raw with
  | Some v => if Qeq_bool v 0 then 0%Q else v
  | None => 0%Q
  end.

(** [backgroundColor] of the short-term loss chart. *)
Definition lossChart_backgroundColor (raw : option Q) : string :=
  let value := raw_or_0 raw in
  if Qlt_le_dec 5 value then "rgba(239, 68, 68, 0.8)"
  else if Qlt_le_dec 1 value then "rgba(245, 158, 11, 0.8)"
  else if Qlt_le_dec 0 value then "rgba(245, 158, 11, 0.5)"
  else "rgba(16, 185, 129, 0.3)".

(** [backgroundColor] of the long-term loss chart. *)
Definition historyLossChart_backgroundColor (raw : option Q) : string :=
  let value := raw_or_0 raw in
  if Qlt_le_dec 5 value then "rgba(239, 68, 68, 0.8)"
  else if Qlt_le_dec 1 value then "rgba(245, 158, 11, 0.8)"
  else if Qlt_le_dec 0 value then "rgba(245, 158, 11, 0.5)"
  else "rgba(16, 185, 129, 0.3)".

(** The four severities, by the names the dashboard's description uses. *)
Definition high_severity : string := "rgba(239, 68, 68, 0.8)".
Definition medium : string := "rgba(245, 158, 11, 0.8)".
Definition low : string := "rgba(245, 158, 11, 0.5)".
Definition nominal : string := "rgba(16, 185, 129, 0.3)".

(** *** Chart registry *)

(** [new Chart(ctx, { data: { labels: [], datasets: [{data: []}, ...] } })] *)
Definition new_chart (n_datasets : nat) : chart :=
  {| labels := Some []; datasets := replicate n_datasets (Some []); redraws := 0 |}.

(** [const ctx = document.getElementById(id); if (ctx) { var = new Chart(...) }]
    The canvas ids are the names of the variables. *)
Definition create_chart (name : string) (n_datasets : nat) : M page unit :=
  p ← get ;
  match elements p !! name with
  | Some _ => modify (set_charts <[name := new_chart n_datasets]>)
  | None => mret tt
  end.

Definition initCharts : M page unit :=
  create_chart "latencyChart" 2 ;;
  create_chart "lossChart" 1.

Definition initHistoryCharts : M page unit :=
  create_chart "historyPingChart" 2 ;;
  create_chart "historyQualityChart" 1 ;;
  create_chart "historyLossChart" 1 ;;
  create_chart "historySignalChart" 1.

(** [chart.data.labels = v] *)
Definition assign_labels (name : string) (v : option (list cell)) : M page unit :=
  modify (set_charts (alter (fun c =>
    {| labels := v; datasets := datasets c; redraws := redraws c |}) name)).

(** [chart.data.datasets[i].data = v]; a [TypeError] when there is no
    dataset [i]. *)
Definition assign_data (name : string) (i : nat) (v : option (list cell)) : M page unit :=
  p ← get ;
  match charts p !! name ≫= (fun c => datasets c !! i) with
  | Some _ =>
      modify (set_charts (alter (fun c =>
        {| labels := labels c; datasets := <[i := v]> (datasets c);
           redraws := redraws c |}) name))
  | None => mthrow (TypeError "datasets[i] is undefined")
  end.

(** [chart.update('none')] *)
Definition update_none (name : string) : M page unit :=
  modify (set_charts (alter (fun c =>
    {| labels := labels c; datasets := datasets c; redraws := S (redraws c) |}) name)).

(** [data.timestamps.length]; a [TypeError] when [data.timestamps] is
    [undefined]. *)
Definition timestamps_length (data : payload) : M page nat :=
  match data !! "timestamps" with
  | Some ts => mret (length ts)
  | None => mthrow (TypeError "data.timestamps is undefined")
  end.

(** [if (chart && data.timestamps.length > 0) { body }]: the length is only
    read when the chart variable is bound. *)
Definition if_chart_and_samples (name : string) (data : payload) (body : M page unit)
  : M page unit :=
  p ← get ;
  match charts p !! name with
  | None => mret tt
  | Some _ =>
      n ← timestamps_length data ;
      when (0 <? n)%nat body
  end.

(** A chart after one accepted response, in one step: labels and dataset
    arrays are the response's, and one more redraw has happened. *)
Definition installed (ts : option (list cell)) (ds : list (option (list cell)))
    (c : chart) : chart :=
  {| labels := ts; datasets := ds; redraws := S (redraws c) |}.

(** The chart variable [name], when bound, holds a chart with [n] datasets. *)
Definition chart_shape (p : page) (name : string) (n : nat) : Prop :=
  forall c, charts p !! name = Some c -> length (datasets c) = n.

Definition short_term_ok (p : page) : Prop :=
  chart_shape p "latencyChart" 2 /\ chart_shape p "lossChart" 1.

Definition long_term_ok (p : page) : Prop :=
  chart_shape p "historyPingChart" 2 /\ chart_shape p "historyQualityChart" 1 /\
  chart_shape p "historyLossChart" 1 /\ chart_shape p "historySignalChart" 1.

(** A computation that leaves every chart as it found it, however it ends. *)
Definition keeps_charts {A} (m : M page A) : Prop :=
  forall p, charts (exec m p) = charts p.

(** The series [names] of a response all have one length. *)
Definition aligned (names : list string) (data : payload) : Prop :=
  exists n, forall name, name ∈ names -> length <$> data !! name = Some n.

(** *** Short-term poll *)

Definition updateCharts_start : M page unit :=
  fetch "/api/history?seconds=60".

Definition updateCharts_resume (r : settled payload) : M page unit :=
  try_catch
    (data ← await r ;
     if_chart_and_samples "latencyChart" data
       (assign_labels "latencyChart" (data !! "timestamps") ;;
        assign_data "latencyChart" 0 (data !! "ping") ;;
        assign_data "latencyChart" 1 (data !! "jitter") ;;
        update_none "latencyChart") ;;
     if_chart_and_samples "lossChart" data
       (assign_labels "lossChart" (data !! "timestamps") ;;
        assign_data "lossChart" 0 (data !! "packet_loss") ;;
        update_none "lossChart"))
    (console_error "Error updating charts:").

(** One poll whose fetch settles with [r] before anything else runs. *)
Definition updateCharts (r : settled payload) : M page unit :=
  updateCharts_start ;; updateCharts_resume r.

(** *** Long-term poll *)

(** [if (period) { currentPeriod = period; }]: [null] and the empty string
    are falsy. *)
Definition adopt_period (period : option string) : M page unit :=
  match period with
  | Some per => if String.eqb per "" then mret tt else modify (set_currentPeriod per)
  | None => mret tt
  end.

Definition updateHistoryCharts_start (period : option string) : M page unit :=
  adopt_period period ;;
  p ← get ;
  fetch ("/api/long-term-history?period=" +:+ currentPeriod p).

Definition updateHistoryCharts_resume (r : settled payload) : M page unit :=
  try_catch
    (data ← await r ;
     if_chart_and_samples "historyPingChart" data
       (assign_labels "historyPingChart" (data !! "timestamps") ;;
        assign_data "historyPingChart" 0 (data !! "ping") ;;
        assign_data "historyPingChart" 1 (data !! "jitter") ;;
        update_none "historyPingChart") ;;
     if_chart_and_samples "historyQualityChart" data
       (assign_labels "historyQualityChart" (data !! "timestamps") ;;
        assign_data "historyQualityChart" 0 (data !! "quality") ;;
        update_none "historyQualityChart") ;;
     if_chart_and_samples "historyLossChart" data
       (assign_labels "historyLossChart" (data !! "timestamps") ;;
        assign_data "historyLossChart" 0 (data !! "packet_loss") ;;
        update_none "historyLossChart") ;;
     if_chart_and_samples "historySignalChart" data
       (assign_labels "historySignalChart" (data !! "timestamps") ;;
        assign_data "historySignalChart" 0 (data !! "signal") ;;
        update_none "historySignalChart"))
    (console_error "Error updating history charts:").

Definition updateHistoryCharts (period : option string) (r : settled payload)
  : M page unit :=
  updateHistoryCharts_start period ;; updateHistoryCharts_resume r.

(** *** Score panel *)

(** [document.getElementById(id).prop = ...]: a [TypeError] when there is no
    such element. *)
Definition write_element (id : string) (f : element -> element) : M page unit :=
  p ← get ;
  match elements p !! id with
  | Some _ => modify (set_elements (alter f id))
  | None => mthrow (TypeError "getElementById(...) is null")
  end.

Definition set_textContent (text : string) (e : element) : element :=
  {| className := className e; textContent := text;
     style_width := style_width e; innerHTML := innerHTML e |}.

Definition set_className (cls : list string) (e : element) : element :=
  {| className := cls; textContent := textContent e;
     style_width := style_width e; innerHTML := innerHTML e |}.

Definition set_style_width (w : string) (e : element) : element :=
  {| className := className e; textContent := textContent e;
     style_width := w; innerHTML := innerHTML e |}.

Definition set_innerHTML (m : markup) (e : element) : element :=
  {| className := className e; textContent := textContent e;
     style_width := style_width e; innerHTML := Some m |}.

(** [classList.add(token)] and [classList.remove(token)] on a token list. *)
Definition tokens_add (token : string) (cls : list string) : list string :=
  if decide (token ∈ cls) then cls else cls ++ [token].

Definition tokens_remove (token : string) (cls : list string) : list string :=
  filter (fun t => t ≠ token) cls.

Definition classList_add (token : string) (e : element) : element :=
  set_className (tokens_add token (className e)) e.

(** The class that follows [score-grade] on the grade element:
    [startsWith] for A, B and C, [===] for D. *)
Definition grade_class (grade : string) : string :=
  if String.prefix "A" grade then "grade-a"
  else if String.prefix "B" grade then "grade-b"
  else if String.prefix "C" grade then "grade-c"
  else if String.eqb grade "D" then "grade-d"
  else "grade-e".

(** [updateDetailBar(prefix, score)]; nothing is written unless both the bar
    and the label element exist. *)
Definition updateDetailBar (prefix : string) (score : Z) : M page unit :=
  p ← get ;
  match elements p !! (prefix +:+ "-bar"), elements p !! (prefix +:+ "-score") with
  | Some _, Some _ =>
      write_element (prefix +:+ "-bar") (set_style_width (pretty score +:+ "%")) ;;
      write_element (prefix +:+ "-score") (set_textContent (pretty score)) ;;
      write_element (prefix +:+ "-bar") (set_className ["detail-fill"]) ;;
      write_element (prefix +:+ "-bar")
        (classList_add (if 80 <=? score then "score-high"
                        else if 50 <=? score then "score-mid"
                        else "score-low"))
  | _, _ => mret tt
  end.

(** What [updateDetailBar prefix score] leaves in the bar element, in one
    step (see [updateDetailBar_run]). *)
Definition bar_rendered (score : Z) (e : element) : element :=
  {| className := ["detail-fill";
                   if 80 <=? score then "score-high"
                   else if 50 <=? score then "score-mid"
                   else "score-low"];
     textContent := textContent e;
     style_width := pretty score +:+ "%";
     innerHTML := innerHTML e |}.

(** [data.details.name?.score || 0] *)
Definition sub_score (d : gmap string detail) (name : string) : Z :=
  App.or_default (d !! name ≫= detail_score) 0.

(** [x || 0] on a measurement. *)
Definition sub_avg_ms (d : gmap string detail) : Q :=
  raw_or_0 (d !! "ping" ≫= avg_ms).

Definition sub_events (d : gmap string detail) : Z :=
  App.or_default (d !! "packet_loss" ≫= events) 0.

Definition updateLongtermScore_start (period : option string) : M page unit :=
  adopt_period period ;;
  p ← get ;
  fetch ("/api/longterm-score?period=" +:+ currentPeriod p).

Definition updateLongtermScore_resume (r : settled score_data) : M page unit :=
  try_catch
    (data ← await r ;
     write_element "lt-grade" (set_textContent (grade data)) ;;
     write_element "lt-grade" (set_className ["score-grade"]) ;;
     write_element "lt-grade" (classList_add (grade_class (grade data))) ;;
     write_element "lt-score" (set_textContent (pretty (score data))) ;;
     write_element "lt-message" (set_textContent (message data)) ;;
     match details data with
     | Some d =>
         updateDetailBar "lt-loss" (sub_score d "packet_loss") ;;
         updateDetailBar "lt-ping" (sub_score d "ping") ;;
         updateDetailBar "lt-conn" (sub_score d "connection") ;;
         updateDetailBar "lt-jitter" (sub_score d "jitter") ;;
         write_element "lt-stats"
           (set_innerHTML (Stats (record_count data) (hours_analyzed data)
                                 (sub_avg_ms d) (sub_events d)))
     | None => mret tt
     end)
    (console_error "Error updating longterm score:").

Definition updateLongtermScore (period : option string) (r : settled score_data)
  : M page unit :=
  updateLongtermScore_start period ;; updateLongtermScore_resume r.

(** The ids the score panel is written through, and the sub-score shown by
    each detail bar. *)
Definition panel_ids : list string :=
  ["lt-grade"; "lt-score"; "lt-message";
   "lt-loss-bar"; "lt-loss-score"; "lt-ping-bar"; "lt-ping-score";
   "lt-conn-bar"; "lt-conn-score"; "lt-jitter-bar"; "lt-jitter-score";
   "lt-stats"].



(** A page that holds the whole score panel, every element blank. *)
Definition blank : element :=
  {| className := []; textContent := ""; style_width := ""; innerHTML := None |}.

Definition panel_page : page :=
  load (list_to_map ((fun id => (id, blank)) <$> panel_ids)) [].

(** *** Period selector *)

Definition button_remove (token : string) (b : button) : button :=
  {| classList := tokens_remove token (classList b);
     dataset_period := dataset_period b |}.

Definition button_add (token : string) (b : button) : button :=
  {| classList := tokens_add token (classList b);
     dataset_period := dataset_period b |}.

Definition is_active (b : button) : Prop := "active" ∈ classList b.

(** The click listener that [initPeriodSelector] puts on control [i]; it
    runs up to the first [await] of each of the two updates it starts. *)
Definition period_click (i : nat) : M page unit :=
  p ← get ;
  match buttons p !! i with
  | Some this =>
      modify (set_buttons (fmap (button_remove "active"))) ;;
      modify (set_buttons (alter (button_add "active") i)) ;;
      updateHistoryCharts_start (dataset_period this) ;;
      updateLongtermScore_start (dataset_period this)
  | None => mret tt
  end.

(** A page with all six canvases, after both registries were initialised. *)
Definition canvases : gmap string element :=
  list_to_map ((fun id => (id, blank)) <$>
    ["latencyChart"; "lossChart"; "historyPingChart"; "historyQualityChart";
     "historyLossChart"; "historySignalChart"]).

Definition dashboard : page :=
  exec (initCharts ;; initHistoryCharts) (load canvases []).

(** The series each poll reads. *)
Definition short_series : list string :=
  ["timestamps"; "ping"; "jitter"; "packet_loss"].

Definition long_series : list string :=
  ["timestamps"; "ping"; "jitter"; "quality"; "packet_loss"; "signal"].

(** A one-sample response with every series in step. *)
Definition one_sample : payload :=
  list_to_map
    [("timestamps", [Str "12:00:00"]);
     ("ping", [Num 20]);
     ("jitter", [Num 2]);
     ("packet_loss", [Num 0])].

(** A response whose series do not all have the length of [timestamps]. *)
Definition ragged : payload :=
  list_to_map
    [("timestamps", [Str "12:00:00"; Str "12:00:01"]);
     ("ping", [Num 20]);
     ("jitter", [Num 1; Num 2]);
     ("packet_loss", [Num 0; Num 0]);
     ("quality", [Num 90]);
     ("signal", [])].

(** Three period controls as a page would ship them, the first active. *)
Definition period_buttons : list button :=
  [ {| classList := ["period-btn"; "active"]; dataset_period := Some "day" |};
    {| classList := ["period-btn"]; dataset_period := Some "week" |};
    {| classList := ["period-btn"]; dataset_period := Some "month" |} ].

Definition selector_page : page := load ∅ period_buttons.

(** *** Runs of polls and what they leave *)

(** What a chart shows: its labels and dataset arrays, redraws aside. *)
Definition content (c : chart) : option (list cell) * list (option (list cell)) :=
  (labels c, datasets c).

Definition contents (p : page)
  : gmap string (option (list cell) * list (option (list cell))) :=
  content <$> charts p.

(** A response the short-term and long-term polls render: a body whose
    [timestamps] array has samples. *)
Definition accepted (r : settled payload) : bool :=
  match r with
  | Body data =>
      match data !! "timestamps" with
      | Some (_ :: _) => true
      | _ => false
      end
  | _ => false
  end.

(** Successive short-term polls, one per settled response. *)
Fixpoint poll_all (rs : list (settled payload)) : M page unit :=
  match rs with
  | [] => mret tt
  | r :: rest => updateCharts r ;; poll_all rest
  end.

(** The callback of [setInterval(..., 60000)], up to the first [await] of
    each update it starts. *)
Definition history_tick : M page unit :=
  updateHistoryCharts_start None ;; updateLongtermScore_start None.

(** The page fields that only the period selector and the score panel
    write, and the charts outside [names]. *)
Definition same_besides (names : list string) (p q : page) : Prop :=
  elements q = elements p /\ buttons q = buttons p /\
  currentPeriod q = currentPeriod p /\
  forall k, k ∉ names -> charts q !! k = charts p !! k.

Definition confined {A} (names : list string) (m : M page A) : Prop :=
  forall p, same_besides names p (exec m p).

(** A computation that leaves the element [id] as it found it, however it
    ends. *)
Definition leaves_element {A} (id : string) (m : M page A) : Prop :=
  forall p, elements (exec m p) !! id = elements p !! id.

(** The error a write through a missing element ends in. *)
Definition missing_element_error : string * exn :=
  ("Error updating longterm score:", TypeError "getElementById(...) is null").

(** What [updateLongtermScore] leaves in the grade element, in one step. *)
Definition grade_rendered (g : string) (e : element) : element :=
  {| className := ["score-grade"; grade_class g];
     textContent := g;
     style_width := style_width e;
     innerHTML := innerHTML e |}.

(** A computation that sends no request, however it ends. *)
Definition keeps_requests {A} (m : M page A) : Prop :=
  forall p, requests (exec m p) = requests p.

(** The number of datasets each chart variable is created with. *)
Definition chart_arity (name : string) : option nat :=
  if decide (name = "latencyChart") then Some 2%nat
  else if decide (name = "lossChart") then Some 1%nat
  else if decide (name = "historyPingChart") then Some 2%nat
  else if decide (name = "historyQualityChart") then Some 1%nat
  else if decide (name = "historyLossChart") then Some 1%nat
  else if decide (name = "historySignalChart") then Some 1%nat
  else None.

(** The error a body without [timestamps] ends in. *)
Definition no_timestamps_error : string * exn :=
  ("Error updating charts:", TypeError "data.timestamps is undefined").

(** Severity rank of the four bar colours, the nominal one lowest. *)
Definition severity (colour : string) : nat :=
  if String.eqb colour "rgba(239, 68, 68, 0.8)" then 3
  else if String.eqb colour "rgba(245, 158, 11, 0.8)" then 2
  else if String.eqb colour "rgba(245, 158, 11, 0.5)" then 1
  else 0.

(** A score response without details. *)
Definition no_details (g : string) (n : Z) (msg : string) : score_data :=
  {| grade := g; score := n; message := msg; record_count := 0;
     hours_analyzed := 0; details := None |}.

End Charts.

(** ** static/js/app.js: the page-level listeners *)

Module Host.

(** A value as [response.json()] gives it.  The members of an object are in
    the order of the text, a repeated name included. *)
#[warnings="-register-all"]
Inductive json : Type :=
| JNull
| JBool (b : bool)
| JNumber (x : Q)
| JString (s : string)
| JArray (items : list json)
| JObject (members : list (string * json)).

(** What the listeners of [app.js] act on: the watcher's variables, the
    [htmx.trigger(selector, event)] calls, the [alert] boxes shown, the
    [console.log] lines (the text and the further arguments, [None] being
    [undefined]), the requests sent and the errors logged. *)
Record host : Type := mkHost {
  watcher : App.app;
  triggers : list (string * string);
  alerts : list string;
  logs : list (string * list (option json));
  posts : list (string * string);
  errors : list (string * exn)
}.

Definition boot : host :=
  {| watcher := App.init; triggers := []; alerts := []; logs := [];
     posts := []; errors := [] |}.

(** A computation on the watcher's variables, run inside the page. *)
Definition on_watcher (m : M App.app unit) : M host unit :=
  fun h =>
    let (o, st) := m (watcher h) in
    (o, {| watcher := st; triggers := triggers h; alerts := alerts h;
           logs := logs h; posts := posts h; errors := errors h |}).

(** [htmx.trigger(selector, event)] *)
Definition htmx_trigger (selector event : string) : M host unit :=
  modify (fun h =>
    {| watcher := watcher h; triggers := triggers h ++ [(selector, event)];
       alerts := alerts h; logs := logs h; posts := posts h;
       errors := errors h |}).

(** [alert(message)] *)
Definition alert (message : string) : M host unit :=
  modify (fun h =>
    {| watcher := watcher h; triggers := triggers h;
       alerts := alerts h ++ [message]; logs := logs h; posts := posts h;
       errors := errors h |}).

(** [console.log(line, ...args)] *)
Definition console_log (line : string) (args : list (option json)) : M host unit :=
  modify (fun h =>
    {| watcher := watcher h; triggers := triggers h; alerts := alerts h;
       logs := logs h ++ [(line, args)]; posts := posts h;
       errors := errors h |}).

(** [fetch(url, { method: 'POST', body: JSON.stringify({ target }) })] *)
Definition post (url target : string) : M host unit :=
  modify (fun h =>
    {| watcher := watcher h; triggers := triggers h; alerts := alerts h;
       logs := logs h; posts := posts h ++ [(url, target)];
       errors := errors h |}).

(** [console.error(msg, error)] *)
Definition console_error (msg : string) (e : exn) : M host unit :=
  modify (fun h =>
    {| watcher := watcher h; triggers := triggers h; alerts := alerts h;
       logs := logs h; posts := posts h; errors := errors h ++ [(msg, e)] |}).

(** The text of the box [launchOverlay] shows. *)
Definition overlay_instructions : string :=
  "To launch the desktop overlay, run:

python overlay.py

from the command line.".

Definition launchOverlay : M host unit := alert overlay_instructions.

(** The member [name] of an object: the last one of that name, as
    [JSON.parse] keeps it. *)
Fixpoint member (name : string) (members : list (string * json)) : option json :=
  match members with
  | [] => None
  | (key, value) :: rest =>
      match member name rest with
      | Some later => Some later
      | None => if String.eqb key name then Some value else None
      end
  end.

(** [data.target]: a [TypeError] when the body is [null]; the member of an
    object, and [undefined] when the object has none or the body is a
    boolean, a number, a string or an array. *)
Definition data_target (data : json) : M host (option json) :=
  match data with
  | JNull => mthrow (TypeError "Cannot read properties of null")
  | JObject members => mret (member "target" members)
  | JBool _ | JNumber _ | JString _ | JArray _ => mret None
  end.

(** [updatePingTarget(target)], split at its first [await]. *)
Definition updatePingTarget_start (target : string) : M host unit :=
  post "/api/ping-target" target.

Definition updatePingTarget_resume (r : Charts.settled json) : M host unit :=
  try_catch
    (data ← match r with
            | Charts.Rejected => mthrow NetworkError
            | Charts.NotJson => mthrow SyntaxError
            | Charts.Body data => mret data
            end ;
     target ← data_target data ;
     console_log "Ping target updated:" [target])
    (console_error "Error updating ping target:").

Definition updatePingTarget (target : string) (r : Charts.settled json)
  : M host unit :=
  updatePingTarget_start target ;; updatePingTarget_resume r.

(** The [keydown] listener: two independent tests, on [event.key] and the
    ctrl and meta modifiers. *)
Definition keydown (key : string) (ctrlKey metaKey : bool) : M host unit :=
  when (String.eqb key "r" && negb ctrlKey && negb metaKey)
       (htmx_trigger "#metrics-grid" "htmx:trigger") ;;
  when (String.eqb key "o" && negb ctrlKey && negb metaKey)
       launchOverlay.

(** The [visibilitychange] listener; [hidden] is [document.hidden]. *)
Definition visibilitychange (hidden : bool) : M host unit :=
  if hidden
  then console_log "Tab hidden - updates continue in background" []
  else console_log "Tab visible - resuming normal updates" [] ;;
       htmx_trigger "#metrics-grid" "htmx:trigger".

(** The events the page listens to, and the listener each one runs. *)
Inductive event : Type :=
| KeyDown (key : string) (ctrlKey metaKey : bool)
| VisibilityChange (hidden : bool)
| AfterSwap (qualityScore : option string) (target_id : string).

Definition dispatch (e : event) : M host unit :=
  match e with
  | KeyDown key ctrlKey metaKey => keydown key ctrlKey metaKey
  | VisibilityChange hidden => visibilitychange hidden
  | AfterSwap qualityScore target_id =>
      on_watcher (App.htmx_afterSwap qualityScore target_id)
  end.

Fixpoint dispatch_all (es : list event) : M host unit :=
  match es with
  | [] => mret tt
  | e :: rest => dispatch e ;; dispatch_all rest
  end.

(** The scores a run of events hands to [checkForAlerts], the number of
    refreshes it asks htmx for and the number of overlay boxes it shows. *)
Definition observed_score (e : event) : option Z :=
  match e with
  | AfterSwap (Some text) target_id =>
      if String.eqb target_id "quality-display"
      then Some (App.afterSwap_score text) else None
  | _ => None
  end.

Definition observed_scores (es : list event) : list Z :=
  omap observed_score es.

Definition asks_refresh (e : event) : bool :=
  match e with
  | KeyDown key ctrlKey metaKey =>
      String.eqb key "r" && negb ctrlKey && negb metaKey
  | VisibilityChange hidden => negb hidden
  | AfterSwap _ _ => false
  end.

(** The one call the listeners make into htmx. *)
Definition refresh_call : string * string := ("#metrics-grid", "htmx:trigger").

Definition asks_overlay (e : event) : bool :=
  match e with
  | KeyDown key ctrlKey metaKey =>
      String.eqb key "o" && negb ctrlKey && negb metaKey
  | _ => false
  end.

End Host.

(** * Properties *)

(** ** Quality watcher and alert tone *)

Section QualityWatcher.
Import App.

Lemma checkForAlerts_run score st :
  checkForAlerts score st =
    (Returned tt,
     {| audioContext := audioContext st;
        lastQualityScore := score;
        effects := effects st ++
          (if (50 <=? lastQualityScore st) && (score <? 50)
           then [dropped_to score] else []) |}).
Proof.
  unfold checkForAlerts, mbind, M_bind, get, when; simpl.
  destruct ((50 <=? lastQualityScore st) && (score <? 50)); simpl.
  - reflexivity.
  - rewrite app_nil_r. reflexivity.
Qed.

Lemma observe_all_snoc seen score st :
  exec (observe_all (seen ++ [score])) st =
  exec (checkForAlerts score) (exec (observe_all seen) st).
Proof.
  revert st. induction seen as [|s seen IH]; intros st; simpl.
  - unfold exec, mbind, M_bind. rewrite !checkForAlerts_run. reflexivity.
  - unfold exec, mbind, M_bind in *. rewrite (checkForAlerts_run s st). apply IH.
Qed.

Lemma observe_all_last seen st :
  lastQualityScore (exec (observe_all seen) st) =
  default (lastQualityScore st) (last seen).
Proof.
  induction seen as [|score seen _] using rev_ind.
  - reflexivity.
  - rewrite observe_all_snoc, last_snoc. unfold exec.
    rewrite checkForAlerts_run. reflexivity.
Qed.

Lemma crossing_reflect prev score :
  (50 <=? prev) && (score <? 50) = true <-> 50 <= prev /\ score < 50.
Proof. rewrite andb_true_iff, Z.leb_le, Z.ltb_lt. reflexivity. Qed.

Lemma app_singleton_neq {A} (l : list A) (x : A) : l ++ [x] <> l.
Proof.
  intros H. apply (f_equal (@length A)) in H.
  rewrite length_app in H. simpl in H. lia.
Qed.

(** C1. After any sequence [seen] of observations from the initial state,
    the stored score is the last observed one (100 when none was observed);
    the next call [checkForAlerts score] stores [score] whether or not it
    alerts, and it alerts (one console warning carrying [score]) exactly
    when the stored score is at least 50 and [score] is below 50.  For
    the observations 100, 70, 40, 30, 60, 45 there are exactly two alerts,
    at 40 and at 45. *)
Theorem checkForAlerts_downward_crossing :
  (forall (seen : list Z) (score : Z),
     let st := exec (observe_all seen) init in
     let st' := exec (checkForAlerts score) st in
     lastQualityScore st = default 100 (last seen) /\
     lastQualityScore st' = score /\
     (effects st' = effects st ++ [dropped_to score]
        <-> 50 <= default 100 (last seen) /\ score < 50) /\
     (effects st' = effects st
        <-> ~ (50 <= default 100 (last seen) /\ score < 50))) /\
  effects (exec (observe_all [100; 70; 40; 30; 60; 45]) init) =
    [dropped_to 40; dropped_to 45].
Proof.
  split; [| reflexivity].
  intros seen score st st'.
  assert (Hlast : lastQualityScore st = default 100 (last seen))
    by apply observe_all_last.
  subst st'. unfold exec. rewrite checkForAlerts_run. simpl.
  rewrite Hlast, <- crossing_reflect.
  split; [reflexivity |]. split; [reflexivity |].
  destruct ((50 <=? default 100 (last seen)) && (score <? 50)); split; split.
  - reflexivity.
  - reflexivity.
  - intros H _. revert H. apply app_singleton_neq.
  - intros H. contradiction H. reflexivity.
  - intros H. rewrite app_nil_r in H. symmetry in H.
    exfalso. revert H. apply app_singleton_neq.
  - discriminate.
  - discriminate.
  - intros _. apply app_nil_r.
Qed.

Lemma perform_run refuses op st :
  perform refuses op st =
    (if refuses op then Threw (DeviceError "audio") else Returned tt,
     {| audioContext := audioContext st;
        lastQualityScore := lastQualityScore st;
        effects := effects st ++ [Audio op] |}).
Proof.
  unfold perform, mbind, M_bind, emit, modify. simpl.
  destruct (refuses op); reflexivity.
Qed.

Lemma perform_bind refuses op (k : M app unit) st :
  (perform refuses op ;; k) st =
    let st' := {| audioContext := audioContext st;
                  lastQualityScore := lastQualityScore st;
                  effects := effects st ++ [Audio op] |} in
    if refuses op then (Threw (DeviceError "audio"), st') else k st'.
Proof.
  unfold mbind at 1. unfold M_bind at 1. rewrite perform_run.
  destruct (refuses op); reflexivity.
Qed.

Lemma perform_all_run refuses ops st :
  perform_all refuses ops st =
    (if existsb refuses ops then Threw (DeviceError "audio") else Returned tt,
     {| audioContext := audioContext st;
        lastQualityScore := lastQualityScore st;
        effects := effects st ++ (Audio <$> attempted refuses ops) |}).
Proof.
  revert st. induction ops as [| op rest IH]; intros st.
  - simpl. rewrite app_nil_r. destruct st; reflexivity.
  - destruct rest as [| op' rest'].
    + simpl perform_all. rewrite perform_run. simpl.
      destruct (refuses op); reflexivity.
    + change (perform_all refuses (op :: op' :: rest'))
        with (perform refuses op ;; perform_all refuses (op' :: rest')).
      rewrite perform_bind. cbv zeta. rewrite IH.
      cbn [existsb attempted fmap list_fmap audioContext lastQualityScore effects].
      destruct (refuses op); cbn [orb].
      * reflexivity.
      * rewrite <- app_assoc. reflexivity.
Qed.

Lemma playAlertSound_tail refuses st :
  playAlertSound refuses st =
    (if audioContext st
     then perform_all refuses synthesis_calls st
     else ((perform refuses NewAudioContext ;; set_audioContext true) ;;
           perform_all refuses synthesis_calls) st).
Proof.
  unfold playAlertSound. unfold mbind at 1. unfold M_bind at 1. unfold get.
  destruct (audioContext st); reflexivity.
Qed.

(** What one invocation of [playAlertSound] does, for every back end. *)
Lemma playAlertSound_eq refuses st :
  playAlertSound refuses st =
    (if existsb refuses (playAlertSound_calls st)
     then Threw (DeviceError "audio") else Returned tt,
     {| audioContext := audioContext st || negb (refuses NewAudioContext);
        lastQualityScore := lastQualityScore st;
        effects := effects st ++
                   (Audio <$> attempted refuses (playAlertSound_calls st)) |}).
Proof.
  rewrite playAlertSound_tail. unfold playAlertSound_calls.
  destruct (audioContext st) eqn:Hctx.
  - rewrite perform_all_run, Hctx. reflexivity.
  - unfold mbind at 1. unfold M_bind at 1.
    rewrite perform_bind. cbv zeta.
    change ([NewAudioContext] ++ synthesis_calls)
      with (NewAudioContext :: synthesis_calls).
    cbn [existsb attempted fmap list_fmap].
    destruct (refuses NewAudioContext); cbn [orb negb].
    + rewrite Hctx. reflexivity.
    + unfold set_audioContext, modify.
      rewrite perform_all_run.
      cbn [audioContext lastQualityScore effects].
      rewrite <- app_assoc. reflexivity.
Qed.

Lemma playAlertSound_tone_played refuses st :
  tone_played st (exec (playAlertSound refuses) st).
Proof.
  unfold tone_played, exec. rewrite playAlertSound_eq. simpl.
  rewrite drop_app_length.
  unfold playAlertSound_calls, synthesis_calls.
  destruct (audioContext st); simpl; eexists; apply list_elem_of_here.
Qed.

Lemma checkForAlerts_silent score st :
  ~ tone_played st (exec (checkForAlerts score) st).
Proof.
  unfold tone_played, exec. rewrite checkForAlerts_run. simpl.
  rewrite drop_app_length. intros [op Hop].
  destruct ((50 <=? lastQualityScore st) && (score <? 50)).
  - apply list_elem_of_singleton in Hop. discriminate Hop.
  - inversion Hop.
Qed.

(** C10, as stated, fails: from the initial state the observation 40 is a
    downward crossing, and no call into the audio API is made. *)
Lemma checkForAlerts_crossing_without_tone :
  ~ (forall st score,
       50 <= lastQualityScore st -> score < 50 ->
       tone_played st (exec (checkForAlerts score) st)).
Proof.
  intros H. apply (checkForAlerts_silent 40 init).
  apply H; simpl; lia.
Qed.

(** C10, amended.  On a downward crossing of 50 [checkForAlerts] logs one
    console warning with the score; it does not invoke [playAlertSound]:
    no audio call is made and [audioContext] is left as it was. *)
Theorem checkForAlerts_crossing_warns_only st score :
  50 <= lastQualityScore st -> score < 50 ->
  effects (exec (checkForAlerts score) st) = effects st ++ [dropped_to score] /\
  ~ tone_played st (exec (checkForAlerts score) st) /\
  audioContext (exec (checkForAlerts score) st) = audioContext st.
Proof.
  intros Hprev Hscore. split; [| split].
  - unfold exec. rewrite checkForAlerts_run. simpl.
    destruct ((50 <=? lastQualityScore st) && (score <? 50)) eqn:Hc.
    + reflexivity.
    + apply not_true_iff_false in Hc. contradiction Hc.
      apply crossing_reflect. split; assumption.
  - apply checkForAlerts_silent.
  - unfold exec. rewrite checkForAlerts_run. reflexivity.
Qed.

Lemma checkForAlerts_crossing_warns_only_at_40 :
  50 <= lastQualityScore init /\ 40 < 50 /\
  effects (exec (checkForAlerts 40) init) = [dropped_to 40] /\
  ~ tone_played init (exec (checkForAlerts 40) init) /\
  audioContext (exec (checkForAlerts 40) init) = false.
Proof.
  split; [simpl; lia |]. split; [lia |].
  apply (checkForAlerts_crossing_warns_only init 40); simpl; lia.
Defined.

(** C9, as stated, fails: on a host without an [AudioContext] constructor
    the first invocation throws to its caller. *)
Lemma playAlertSound_throws_to_caller :
  ~ (forall refuses st, result (playAlertSound refuses) st = Returned tt).
Proof.
  intros H. specialize (H no_audio_constructor init).
  unfold result in H. rewrite playAlertSound_eq in H. discriminate H.
Qed.

(** C9, amended.  [playAlertSound] has no handler of its own: it throws to
    its caller exactly when the back end refuses one of the calls it makes,
    and returns normally exactly when none is refused; either way the only
    effects are the audio calls reached, so nothing is logged.
    [checkForAlerts] does not call it: whatever the audio back end does,
    [checkForAlerts] returns normally, stores the score and makes no audio
    call. *)
Theorem playAlertSound_failure_propagates :
  forall refuses st,
    let calls := playAlertSound_calls st in
    (result (playAlertSound refuses) st = Threw (DeviceError "audio")
       <-> exists op, op ∈ calls /\ refuses op = true) /\
    (result (playAlertSound refuses) st = Returned tt
       <-> forall op, op ∈ calls -> refuses op = false) /\
    effects (exec (playAlertSound refuses) st) =
      effects st ++ (Audio <$> attempted refuses calls) /\
    (forall score,
       result (checkForAlerts score) st = Returned tt /\
       lastQualityScore (exec (checkForAlerts score) st) = score /\
       ~ tone_played st (exec (checkForAlerts score) st)).
Proof.
  intros refuses st calls. unfold result, exec.
  rewrite playAlertSound_eq. fold calls. simpl.
  split; [| split; [| split]].
  - destruct (existsb refuses calls) eqn:He.
    + split; [intros _ | reflexivity].
      apply existsb_exists in He as (op & Hin & Hop).
      exists op. split; [apply list_elem_of_In, Hin | exact Hop].
    + split; [discriminate |]. intros (op & Hin & Hop).
      apply not_true_iff_false in He. contradiction He.
      apply existsb_exists. exists op.
      split; [apply list_elem_of_In, Hin | exact Hop].
  - destruct (existsb refuses calls) eqn:He.
    + split; [discriminate |]. intros Hall.
      apply existsb_exists in He as (op & Hin & Hop).
      rewrite (Hall op) in Hop; [discriminate | apply list_elem_of_In, Hin].
    + split; [intros _ | reflexivity]. intros op Hin.
      destruct (refuses op) eqn:Hop; [| reflexivity].
      apply not_true_iff_false in He. contradiction He.
      apply existsb_exists. exists op.
      split; [apply list_elem_of_In, Hin | exact Hop].
  - reflexivity.
  - intros score. rewrite checkForAlerts_run. simpl.
    split; [reflexivity |]. split; [reflexivity |].
    pose proof (checkForAlerts_silent score st) as Hs.
    unfold exec in Hs. rewrite checkForAlerts_run in Hs. exact Hs.
Qed.
End QualityWatcher.

(** ** The afterSwap hook *)

Section AfterSwap.
Import App.

Lemma htmx_afterSwap_stores text st :
  lastQualityScore (exec (htmx_afterSwap (Some text) "quality-display") st)
  = afterSwap_score text.
Proof.
  unfold htmx_afterSwap, exec. simpl. rewrite checkForAlerts_run. reflexivity.
Qed.

(** [parseInt] reads back the decimal numeral of every integer. *)
Lemma small_cases (y : N) :
  (0 < y < 10)%N ->
  y = 1%N \/ y = 2%N \/ y = 3%N \/ y = 4%N \/ y = 5%N \/
  y = 6%N \/ y = 7%N \/ y = 8%N \/ y = 9%N.
Proof. lia. Qed.

Lemma digit_value_pretty_N_char (y : N) :
  (y < 10)%N -> digit_value 10 (pretty_N_char y) = Some (Z.of_N y).
Proof.
  intros Hy. destruct (decide (y = 0%N)) as [-> | Hnz]; [reflexivity |].
  destruct (small_cases y) as [-> | [-> | [-> | [-> | [-> | [-> | [-> | [-> | ->]]]]]]]];
    [lia | reflexivity ..].
Qed.

Lemma digits_value_pretty_N_go (x : N) :
  (0 < x)%N ->
  exists k, forall s acc,
    digits_value 10 (pretty_N_go x s) acc =
    digits_value 10 s (Some (default 0 acc * k + Z.of_N x)).
Proof.
  induction (N.lt_wf_0 x) as [x _ IH]. intros Hpos.
  assert (Hr : (x `mod` 10 < 10)%N) by (apply N.mod_lt; discriminate).
  assert (Hx : Z.of_N x = 10 * Z.of_N (x `div` 10) + Z.of_N (x `mod` 10)).
  { assert (Hten : (10 <> 0)%N) by discriminate.
    rewrite (N.div_mod x 10 Hten) at 1.
    rewrite N2Z.inj_add, N2Z.inj_mul. reflexivity. }
  destruct (decide (x `div` 10 = 0)%N) as [Hq | Hq].
  - exists 10. intros s acc. rewrite pretty_N_go_step by assumption.
    rewrite Hq, pretty_N_go_0. cbn [digits_value].
    rewrite digit_value_pretty_N_char by assumption.
    f_equal. f_equal. rewrite Hx, Hq. lia.
  - destruct (IH (x `div` 10)%N) as [k Hk].
    { apply N.div_lt; lia. }
    { lia. }
    exists (10 * k). intros s acc. rewrite pretty_N_go_step by assumption.
    rewrite Hk. cbn [digits_value].
    rewrite digit_value_pretty_N_char by assumption.
    f_equal. f_equal. cbn [from_option id]. rewrite Hx. lia.
Qed.

Lemma pretty_N_go_leading (x : N) (s : string) :
  (0 < x)%N ->
  exists y rest,
    (0 < y < 10)%N /\ pretty_N_go x s = String (pretty_N_char y) rest.
Proof.
  revert s. induction (N.lt_wf_0 x) as [x _ IH]. intros s Hpos.
  rewrite pretty_N_go_step by assumption.
  destruct (decide (x `div` 10 = 0)%N) as [Hq | Hq].
  - rewrite Hq, pretty_N_go_0. exists (x `mod` 10)%N, s.
    split; [| reflexivity].
    assert (Hten : (10 <> 0)%N) by discriminate.
    pose proof (N.div_mod x 10 Hten) as Hx. rewrite Hq in Hx.
    pose proof (N.mod_lt x 10 Hten). lia.
  - assert (Hlt : (x `div` 10 < x)%N) by (apply N.div_lt; lia).
    assert (Hqpos : (0 < x `div` 10)%N) by (apply N.neq_0_lt_0; exact Hq).
    apply (IH _ Hlt _ Hqpos).
Qed.

Lemma parseInt_numeral (x : N) (s : string) :
  (0 < x)%N -> s = pretty_N_go x "" ->
  parseInt s = Some (Z.of_N x) /\ parseInt ("-" +:+ s) = Some (- Z.of_N x).
Proof.
  intros Hpos ->.
  destruct (digits_value_pretty_N_go x Hpos) as [k Hk].
  destruct (pretty_N_go_leading x "" Hpos) as (y & rest & Hy & Hlead).
  assert (Hdigits : digits_value 10 (String (pretty_N_char y) rest) None
                    = Some (Z.of_N x)).
  { rewrite <- Hlead, Hk. reflexivity. }
  rewrite Hlead.
  destruct (small_cases y Hy)
    as [-> | [-> | [-> | [-> | [-> | [-> | [-> | [-> | ->]]]]]]]];
    (split;
     [ match goal with
       | |- parseInt (String ?c rest) = _ =>
           change (parseInt (String c rest))
             with (Z.mul 1 <$> digits_value 10 (String c rest) None)
       end
     | match goal with
       | |- parseInt ("-" +:+ String ?c rest) = _ =>
           change (parseInt ("-" +:+ String c rest))
             with (Z.mul (-1) <$> digits_value 10 (String c rest) None)
       end ];
     rewrite Hdigits; cbn [fmap option_fmap option_map];
     f_equal; lia).
Qed.

Lemma parseInt_pretty (n : Z) : parseInt (pretty n) = Some n.
Proof.
  destruct n as [| q | q]; [reflexivity | |].
  - destruct (parseInt_numeral (N.pos q) (pretty_N_go (N.pos q) "")) as [H _];
      [lia | reflexivity |].
    exact H.
  - destruct (parseInt_numeral (N.pos q) (pretty_N_go (N.pos q) "")) as [_ H];
      [lia | reflexivity |].
    exact H.
Qed.

(** A rendered non-zero integer reaches [checkForAlerts] unchanged; the
    rendered zero does not, [0 || 100] being 100. *)
Lemma afterSwap_score_numeral (n : Z) :
  n <> 0 -> afterSwap_score (pretty n) = n.
Proof.
  intros Hn. unfold afterSwap_score. rewrite parseInt_pretty.
  destruct n; [contradiction | reflexivity ..].
Qed.

Lemma afterSwap_score_zero : afterSwap_score "0" = 100.
Proof. reflexivity. Qed.

(** C4, as stated, fails: the text [150] is not an integer in 0..100, and
    the score handed to [checkForAlerts] is 150, not 100. *)
Lemma afterSwap_score_150 :
  ~ (forall text,
       (forall n, parseInt text = Some n -> 0 <= n <= 100 ->
                  afterSwap_score text = n) /\
       ((~ exists n, parseInt text = Some n /\ 0 <= n <= 100) ->
        afterSwap_score text = 100)).
Proof.
  intros H. destruct (H "150") as [_ H100].
  assert (Hscore : afterSwap_score "150" = 150) by reflexivity.
  rewrite H100 in Hscore; [discriminate |].
  intros (n & Hn & Hrange). vm_compute in Hn.
  injection Hn as <-. lia.
Qed.

(** C4, amended.  When [parseInt] of the text is not zero, the score handed
    to [checkForAlerts] by the afterSwap handler is that integer, whether
    or not it lies in 0..100, and it is 100 when the text does not start
    with an integer ([parseInt] gives [NaN]). *)
Theorem afterSwap_score_parsed text :
  parseInt text <> Some 0 ->
  afterSwap_score text = default 100 (parseInt text) /\
  forall st,
    lastQualityScore (exec (htmx_afterSwap (Some text) "quality-display") st)
    = default 100 (parseInt text).
Proof.
  intros Hnz.
  assert (Hs : afterSwap_score text = default 100 (parseInt text)).
  { unfold afterSwap_score, or_default.
    destruct (parseInt text) as [[| n | n] |]; try reflexivity.
    contradiction Hnz. reflexivity. }
  split; [exact Hs |]. intros st. rewrite htmx_afterSwap_stores. exact Hs.
Qed.

Lemma afterSwap_score_parsed_at_150 :
  parseInt "150" <> Some 0 /\
  afterSwap_score "150" = 150 /\
  forall st,
    lastQualityScore (exec (htmx_afterSwap (Some "150") "quality-display") st)
    = 150.
Proof.
  split; [discriminate |].
  apply (afterSwap_score_parsed "150"). discriminate.
Defined.
End AfterSwap.

(** ** Packet-loss bar colour *)

Section LossColour.
Import Charts.

Lemma raw_or_0_some v : (raw_or_0 (Some v) == v)%Q.
Proof.
  unfold raw_or_0. destruct (Qeq_bool v 0) eqn:Hz.
  - apply Qeq_bool_iff in Hz. symmetry. exact Hz.
  - reflexivity.
Qed.

Lemma backgroundColor_same raw :
  historyLossChart_backgroundColor raw = lossChart_backgroundColor raw.
Proof. reflexivity. Qed.

(** The colour as a function of the value, with no assumption on it. *)
Lemma lossChart_backgroundColor_cases v :
  let c := lossChart_backgroundColor (Some v) in
  (c = high_severity <-> 5 < v)%Q /\
  (c = medium <-> 1 < v /\ v <= 5)%Q /\
  (c = low <-> 0 < v /\ v <= 1)%Q /\
  (c = nominal <-> v <= 0)%Q.
Proof.
  unfold lossChart_backgroundColor, high_severity, medium, low, nominal.
  pose proof (raw_or_0_some v) as Hv. revert Hv.
  generalize (raw_or_0 (Some v)) as value. intros value Hv. cbv zeta.
  destruct (Qlt_le_dec 5 value) as [H5 | H5];
    [| destruct (Qlt_le_dec 1 value) as [H1 | H1];
       [| destruct (Qlt_le_dec 0 value) as [H0 | H0]]];
    rewrite Hv in *;
    repeat split; intros; try discriminate; try reflexivity; try lra.
Qed.

(** C6. For a packet-loss value [v] (a percentage, so not negative) the
    short-term bar colour is the high-severity one iff v > 5, the medium
    one iff 1 < v <= 5, the low one iff 0 < v <= 1 and the nominal one iff
    v = 0; the long-term chart's function gives the same colour for every
    raw value, absent ones included. *)
Theorem loss_colour_thresholds (v : Q) :
  (0 <= v)%Q ->
  (lossChart_backgroundColor (Some v) = high_severity <-> 5 < v)%Q /\
  (lossChart_backgroundColor (Some v) = medium <-> 1 < v /\ v <= 5)%Q /\
  (lossChart_backgroundColor (Some v) = low <-> 0 < v /\ v <= 1)%Q /\
  (lossChart_backgroundColor (Some v) = nominal <-> v == 0)%Q /\
  (forall raw,
     historyLossChart_backgroundColor raw = lossChart_backgroundColor raw).
Proof.
  intros Hpos.
  destruct (lossChart_backgroundColor_cases v) as (Hh & Hm & Hl & Hn).
  repeat split; try (apply Hh || apply Hm || apply Hl); try assumption.
  - intros Hc. apply Hn in Hc. lra.
  - intros Hz. apply Hn. lra.
Qed.

Lemma loss_colour_thresholds_at_half :
  (0 <= 1 # 2)%Q /\
  lossChart_backgroundColor (Some (1 # 2)%Q) = low /\
  historyLossChart_backgroundColor (Some (1 # 2)%Q) = low.
Proof.
  split; [unfold Qle; simpl; lia |].
  destruct (loss_colour_thresholds (1 # 2)%Q) as (_ & _ & Hl & _ & Hsame).
  - unfold Qle; simpl; lia.
  - split; [| rewrite Hsame]; apply Hl; unfold Qlt, Qle; simpl; lia.
Defined.
End LossColour.

(** ** Score panel *)

Section ScorePanel.
Import Charts.

Lemma write_element_bind id f (k : M page unit) p :
  is_Some (elements p !! id) ->
  (write_element id f ;; k) p = k (set_elements (alter f id) p).
Proof.
  intros [e He]. unfold mbind at 1. unfold M_bind at 1.
  unfold write_element. unfold mbind at 1. unfold M_bind at 1. unfold get.
  rewrite He. reflexivity.
Qed.

Lemma write_element_run id f p :
  is_Some (elements p !! id) ->
  write_element id f p = (Returned tt, set_elements (alter f id) p).
Proof.
  intros [e He]. unfold write_element.
  unfold mbind at 1. unfold M_bind at 1. unfold get. rewrite He. reflexivity.
Qed.

Lemma elements_set_elements f p : elements (set_elements f p) = f (elements p).
Proof. reflexivity. Qed.

Lemma bar_score_ids_differ prefix : prefix +:+ "-bar" <> prefix +:+ "-score".
Proof. intros H. apply (inj (String.app prefix)) in H. discriminate H. Qed.

(** [updateDetailBar] when both of its elements are on the page. *)
Lemma updateDetailBar_run prefix s p :
  is_Some (elements p !! (prefix +:+ "-bar")) ->
  is_Some (elements p !! (prefix +:+ "-score")) ->
  updateDetailBar prefix s p =
    (Returned tt,
     set_elements
       (fun els =>
          alter (bar_rendered s) (prefix +:+ "-bar")
            (alter (set_textContent (pretty s)) (prefix +:+ "-score") els))
       p).
Proof.
  intros [bar0 Hbar] [value0 Hval].
  pose proof (bar_score_ids_differ prefix) as Hne.
  unfold updateDetailBar. unfold mbind at 1. unfold M_bind at 1. unfold get.
  rewrite Hbar, Hval.
  rewrite write_element_bind by (rewrite Hbar; eauto).
  rewrite write_element_bind
    by (rewrite elements_set_elements, lookup_alter_ne, Hval by done; eauto).
  rewrite write_element_bind
    by (rewrite !elements_set_elements, lookup_alter_ne, lookup_alter_eq, Hbar
          by done; eauto).
  rewrite write_element_run
    by (rewrite !elements_set_elements, lookup_alter_eq, lookup_alter_ne,
          lookup_alter_eq, Hbar by done; eauto).
  f_equal. destruct p as [ch per els btns reqs cons].
  unfold set_elements; simpl in *. f_equal.
  apply map_eq. intros id.
  destruct (decide (id = prefix +:+ "-bar")) as [-> | Hb].
  - repeat (rewrite lookup_alter_eq || rewrite lookup_alter_ne by done).
    rewrite Hbar. simpl. f_equal.
    unfold bar_rendered, classList_add, tokens_add, set_className. simpl.
    f_equal.
    destruct (80 <=? s); [| destruct (50 <=? s)];
      (match goal with
       | |- context [decide ?P] => destruct (decide P) as [Hin | _]
       end; [apply list_elem_of_singleton in Hin; discriminate Hin | reflexivity]).
  - rewrite !lookup_alter_ne by done.
    destruct (decide (id = prefix +:+ "-score")) as [-> | Hs].
    + repeat (rewrite lookup_alter_eq || rewrite lookup_alter_ne by done).
      reflexivity.
    + rewrite !lookup_alter_ne by done. reflexivity.
Qed.





Lemma grade_class_not_score_grade g : grade_class g <> "score-grade".
Proof.
  unfold grade_class.
  destruct (String.prefix "A" g), (String.prefix "B" g),
    (String.prefix "C" g), (String.eqb g "D"); discriminate.
Qed.

Lemma set_elements_twice f g p :
  set_elements f (set_elements g p) = set_elements (fun els => f (g els)) p.
Proof. reflexivity. Qed.


Lemma prefix_single a g :
  String.prefix (String a "") g = true <-> exists rest, g = String a rest.
Proof.
  destruct g as [| c g]; cbn [String.prefix].
  - split; [discriminate | intros [rest H]; discriminate H].
  - destruct (Ascii.ascii_dec a c) as [<- | Hne].
    + split; [eauto | intros _; destruct g; reflexivity].
    + split; [discriminate |]. intros [rest [= <- _]]. contradiction.
Qed.

Lemma grade_class_cases g :
  (String.prefix "A" g = true -> grade_class g = "grade-a") /\
  (String.prefix "B" g = true -> grade_class g = "grade-b") /\
  (String.prefix "C" g = true -> grade_class g = "grade-c") /\
  (g = "D" -> grade_class g = "grade-d") /\
  (String.prefix "A" g = false -> String.prefix "B" g = false ->
   String.prefix "C" g = false -> g <> "D" -> grade_class g = "grade-e") /\
  grade_class "B+" = "grade-b" /\ grade_class "E" = "grade-e".
Proof.
  repeat split; try reflexivity.
  - intros H. apply prefix_single in H as [rest ->]. destruct rest; reflexivity.
  - intros H. apply prefix_single in H as [rest ->]. destruct rest; reflexivity.
  - intros H. apply prefix_single in H as [rest ->]. destruct rest; reflexivity.
  - intros ->. reflexivity.
  - unfold grade_class. intros -> -> -> Hd.
    apply String.eqb_neq in Hd. rewrite Hd. reflexivity.
Qed.

(** C5, at the failing input.  The grade [D+] starts with [D], and the
    class computed for it is the fallback [grade-e], not [grade-d]: the D
    branch compares with [===] where the A, B and C branches use
    [startsWith]. *)
Theorem grade_class_D_plus :
  String.prefix "D" "D+" = true /\ grade_class "D+" = "grade-e".
Proof. split; reflexivity. Qed.





End ScorePanel.

(** ** Period selector *)

Section PeriodSelector.
Import Charts.

Lemma tokens_remove_gone token cls : token ∉ tokens_remove token cls.
Proof.
  unfold tokens_remove. intros Hin.
  apply list_elem_of_filter in Hin as [Hne _]. contradiction Hne. reflexivity.
Qed.

Lemma tokens_add_there token cls : token ∈ tokens_add token cls.
Proof.
  unfold tokens_add. destruct (decide (token ∈ cls)) as [Hin | _].
  - exact Hin.
  - apply elem_of_app. right. apply list_elem_of_here.
Qed.

Lemma period_click_run p i this per :
  buttons p !! i = Some this -> dataset_period this = Some per -> per <> "" ->
  period_click i p =
    (Returned tt,
     {| charts := charts p;
        currentPeriod := per;
        elements := elements p;
        buttons := alter (button_add "active") i
                     (button_remove "active" <$> buttons p);
        requests := requests p ++
                    ["/api/long-term-history?period=" +:+ per;
                     "/api/longterm-score?period=" +:+ per];
        console := console p |}).
Proof.
  intros Hthis Hper Hne. apply String.eqb_neq in Hne.
  unfold period_click. unfold mbind at 1. unfold M_bind at 1. unfold get.
  rewrite Hthis, Hper.
  unfold updateHistoryCharts_start, updateLongtermScore_start, adopt_period.
  rewrite Hne.
  unfold mbind, M_bind, modify, fetch, get, set_buttons, set_currentPeriod.
  cbn. unfold modify. cbn. rewrite <- app_assoc. reflexivity.
Qed.

(** C7. A click on period control [i] whose [data-period] is [per] issues
    two requests and no more, one to the long-term-history endpoint and
    one to the longterm-score endpoint, both with [period=per]; afterwards
    control [i] carries the active marker and no other control does. *)
Theorem period_click_selects p i this per :
  buttons p !! i = Some this -> dataset_period this = Some per -> per <> "" ->
  requests (exec (period_click i) p) =
    requests p ++ ["/api/long-term-history?period=" +:+ per;
                   "/api/longterm-score?period=" +:+ per] /\
  currentPeriod (exec (period_click i) p) = per /\
  length (buttons (exec (period_click i) p)) = length (buttons p) /\
  (exists b, buttons (exec (period_click i) p) !! i = Some b /\ is_active b) /\
  (forall j b, buttons (exec (period_click i) p) !! j = Some b ->
               (is_active b <-> j = i)).
Proof.
  intros Hthis Hper Hne. unfold exec.
  rewrite (period_click_run p i this per) by assumption.
  cbn [snd requests currentPeriod buttons].
  split; [reflexivity |]. split; [reflexivity |].
  split; [rewrite length_alter, length_fmap; reflexivity |].
  split.
  - rewrite list_lookup_alter_eq, list_lookup_fmap, Hthis. simpl.
    eexists. split; [reflexivity |]. apply tokens_add_there.
  - intros j b Hb. destruct (decide (j = i)) as [-> | Hji].
    + rewrite list_lookup_alter_eq, list_lookup_fmap, Hthis in Hb.
      injection Hb as <-. split; [reflexivity |]. intros _.
      apply tokens_add_there.
    + rewrite list_lookup_alter_ne, list_lookup_fmap in Hb by done.
      destruct (buttons p !! j) as [b0 |]; [| discriminate].
      injection Hb as <-. split; [| contradiction].
      intros Hact. exfalso. revert Hact. apply tokens_remove_gone.
Qed.

Lemma period_click_selects_week :
  requests (exec (period_click 1) selector_page) =
    ["/api/long-term-history?period=week"; "/api/longterm-score?period=week"] /\
  currentPeriod (exec (period_click 1) selector_page) = "week" /\
  length (buttons (exec (period_click 1) selector_page)) = 3%nat /\
  (exists b, buttons (exec (period_click 1) selector_page) !! 1%nat = Some b /\
             is_active b) /\
  (forall j b, buttons (exec (period_click 1) selector_page) !! j = Some b ->
               (is_active b <-> j = 1%nat)).
Proof.
  apply (period_click_selects selector_page 1
           {| classList := ["period-btn"]; dataset_period := Some "week" |}
           "week").
  - reflexivity.
  - reflexivity.
  - discriminate.
Defined.
End PeriodSelector.

(** ** Chart registry and polls *)

Section Polls.
Import Charts.

Lemma charts_set_charts f p : charts (set_charts f p) = f (charts p).
Proof. reflexivity. Qed.

Lemma set_charts_alter_twice f g name p :
  set_charts (alter f name) (set_charts (alter g name) p)
  = set_charts (alter (f ∘ g) name) p.
Proof.
  unfold set_charts; simpl. f_equal. apply alter_alter_eq.
Qed.

Lemma if_chart_and_samples_unbound name data body p :
  charts p !! name = None ->
  if_chart_and_samples name data body p = (Returned tt, p).
Proof.
  intros Hnone. unfold if_chart_and_samples.
  unfold mbind at 1. unfold M_bind at 1. unfold get. rewrite Hnone. reflexivity.
Qed.

Lemma if_chart_and_samples_empty name data body p :
  data !! "timestamps" = Some [] ->
  if_chart_and_samples name data body p = (Returned tt, p).
Proof.
  intros Hts. unfold if_chart_and_samples.
  unfold mbind at 1. unfold M_bind at 1. unfold get.
  destruct (charts p !! name); [| reflexivity].
  unfold timestamps_length. rewrite Hts. reflexivity.
Qed.

Lemma if_chart_and_samples_bound name data ts body p c :
  charts p !! name = Some c ->
  data !! "timestamps" = Some ts -> ts <> [] ->
  if_chart_and_samples name data body p = body p.
Proof.
  intros Hc Hts Hne. unfold if_chart_and_samples.
  unfold mbind at 1. unfold M_bind at 1. unfold get. rewrite Hc.
  unfold timestamps_length. rewrite Hts.
  destruct ts as [| t ts]; [contradiction |]. reflexivity.
Qed.

Lemma set_charts_alter_unbound f name p :
  charts p !! name = None -> set_charts (alter f name) p = p.
Proof.
  intros Hnone. destruct p as [ch per els btns reqs cons].
  unfold set_charts; simpl in *. f_equal.
  apply map_eq. intros k. rewrite lookup_alter.
  destruct (decide (name = k)) as [<- | _]; [rewrite Hnone |]; reflexivity.
Qed.

Lemma assign_data_bind name i v (k : M page unit) p c d :
  charts p !! name = Some c -> datasets c !! i = Some d ->
  (assign_data name i v ;; k) p =
    k (set_charts (alter (fun c =>
         {| labels := labels c; datasets := <[i := v]> (datasets c);
            redraws := redraws c |}) name) p).
Proof.
  intros Hc Hd. unfold mbind at 1. unfold M_bind at 1.
  unfold assign_data. unfold mbind at 1. unfold M_bind at 1. unfold get.
  rewrite Hc. simpl. rewrite Hd. reflexivity.
Qed.

(** A guarded block that writes two datasets. *)
Lemma install_two name data ts a b p :
  chart_shape p name 2 ->
  data !! "timestamps" = Some ts -> ts <> [] ->
  if_chart_and_samples name data
    (assign_labels name (data !! "timestamps") ;;
     assign_data name 0 a ;;
     assign_data name 1 b ;;
     update_none name) p
  = (Returned tt, set_charts (alter (installed (Some ts) [a; b]) name) p).
Proof.
  intros Hshape Hts Hne.
  destruct (charts p !! name) as [c |] eqn:Hc.
  - rewrite (if_chart_and_samples_bound name data ts _ p c) by assumption.
    specialize (Hshape c Hc).
    destruct (datasets c) as [| d0 [| d1 [| d2 ds]]] eqn:Hds;
      try discriminate Hshape.
    unfold mbind at 1. unfold M_bind at 1. unfold assign_labels, modify.
    erewrite assign_data_bind;
      [| rewrite charts_set_charts, lookup_alter_eq, Hc; reflexivity
       | simpl; rewrite Hds; reflexivity ].
    erewrite assign_data_bind;
      [| rewrite !charts_set_charts, !lookup_alter_eq, Hc; reflexivity
       | simpl; rewrite Hds; reflexivity ].
    unfold update_none, modify. rewrite !set_charts_alter_twice.
    f_equal. destruct p as [ch per els btns reqs cons].
    unfold set_charts; simpl in *. f_equal.
    apply map_eq. intros k. rewrite !lookup_alter.
    destruct (decide (name = k)) as [<- | _]; [| reflexivity].
    rewrite Hc. simpl. rewrite Hds, Hts. reflexivity.
  - rewrite if_chart_and_samples_unbound by assumption.
    rewrite set_charts_alter_unbound by assumption. reflexivity.
Qed.

(** A guarded block that writes one dataset. *)
Lemma install_one name data ts a p :
  chart_shape p name 1 ->
  data !! "timestamps" = Some ts -> ts <> [] ->
  if_chart_and_samples name data
    (assign_labels name (data !! "timestamps") ;;
     assign_data name 0 a ;;
     update_none name) p
  = (Returned tt, set_charts (alter (installed (Some ts) [a]) name) p).
Proof.
  intros Hshape Hts Hne.
  destruct (charts p !! name) as [c |] eqn:Hc.
  - rewrite (if_chart_and_samples_bound name data ts _ p c) by assumption.
    specialize (Hshape c Hc).
    destruct (datasets c) as [| d0 [| d1 ds]] eqn:Hds;
      try discriminate Hshape.
    unfold mbind at 1. unfold M_bind at 1. unfold assign_labels, modify.
    erewrite assign_data_bind;
      [| rewrite charts_set_charts, lookup_alter_eq, Hc; reflexivity
       | simpl; rewrite Hds; reflexivity ].
    unfold update_none, modify. rewrite !set_charts_alter_twice.
    f_equal. destruct p as [ch per els btns reqs cons].
    unfold set_charts; simpl in *. f_equal.
    apply map_eq. intros k. rewrite !lookup_alter.
    destruct (decide (name = k)) as [<- | _]; [| reflexivity].
    rewrite Hc. simpl. rewrite Hds, Hts. reflexivity.
  - rewrite if_chart_and_samples_unbound by assumption.
    rewrite set_charts_alter_unbound by assumption. reflexivity.
Qed.

Lemma chart_shape_alter_other f name other n p :
  name <> other -> chart_shape p other n ->
  chart_shape (set_charts (alter f name) p) other n.
Proof.
  intros Hne Hshape c. rewrite charts_set_charts, lookup_alter_ne by done.
  apply Hshape.
Qed.

Lemma chart_shape_installed ts ds name p :
  chart_shape (set_charts (alter (installed ts ds) name) p) name (length ds).
Proof.
  intros c. rewrite charts_set_charts, lookup_alter_eq.
  destruct (charts p !! name); [| discriminate].
  intros [= <-]. reflexivity.
Qed.

Lemma updateCharts_start_run p :
  updateCharts_start p =
    (Returned tt,
     {| charts := charts p; currentPeriod := currentPeriod p;
        elements := elements p; buttons := buttons p;
        requests := requests p ++ ["/api/history?seconds=60"];
        console := console p |}).
Proof. reflexivity. Qed.

(** The three ways a short-term poll can end that the charts survive. *)
Lemma updateCharts_resume_rejected p :
  charts (exec (updateCharts_resume Rejected) p) = charts p /\
  console (exec (updateCharts_resume Rejected) p) =
    console p ++ [("Error updating charts:", NetworkError)].
Proof. split; reflexivity. Qed.

Lemma updateCharts_resume_not_json p :
  charts (exec (updateCharts_resume NotJson) p) = charts p /\
  console (exec (updateCharts_resume NotJson) p) =
    console p ++ [("Error updating charts:", SyntaxError)].
Proof. split; reflexivity. Qed.

Lemma updateCharts_resume_empty data p :
  data !! "timestamps" = Some [] ->
  updateCharts_resume (Body data) p = (Returned tt, p).
Proof.
  intros Hts. unfold updateCharts_resume, try_catch, await.
  unfold mbind at 1. unfold M_bind at 1. unfold mret at 1. unfold M_ret at 1.
  unfold mbind at 1. unfold M_bind at 1.
  rewrite if_chart_and_samples_empty by assumption.
  rewrite if_chart_and_samples_empty by assumption. reflexivity.
Qed.

Lemma updateCharts_resume_installs data ts p :
  short_term_ok p -> data !! "timestamps" = Some ts -> ts <> [] ->
  updateCharts_resume (Body data) p =
    (Returned tt,
     set_charts (alter (installed (Some ts) [data !! "packet_loss"]) "lossChart")
       (set_charts
          (alter (installed (Some ts) [data !! "ping"; data !! "jitter"])
                 "latencyChart") p)).
Proof.
  intros [Hlat Hloss] Hts Hne. unfold updateCharts_resume, try_catch, await.
  unfold mbind at 1. unfold M_bind at 1. unfold mret at 1. unfold M_ret at 1.
  unfold mbind at 1. unfold M_bind at 1.
  rewrite (install_two _ _ ts) by assumption.
  rewrite (install_one _ _ ts);
    [reflexivity | apply chart_shape_alter_other; [done | assumption] | assumption ..].
Qed.

Lemma updateCharts_failed_keeps p r :
  (r = Rejected \/ r = NotJson \/
   exists data, r = Body data /\ data !! "timestamps" = Some []) ->
  charts (exec (updateCharts r) p) = charts p.
Proof.
  unfold updateCharts, exec. unfold mbind, M_bind.
  rewrite updateCharts_start_run.
  intros [-> | [-> | (data & -> & Hts)]].
  - reflexivity.
  - reflexivity.
  - rewrite updateCharts_resume_empty by assumption. reflexivity.
Qed.

Lemma updateCharts_installs data ts p :
  short_term_ok p -> data !! "timestamps" = Some ts -> ts <> [] ->
  charts (exec (updateCharts (Body data)) p) =
    alter (installed (Some ts) [data !! "packet_loss"]) "lossChart"
      (alter (installed (Some ts) [data !! "ping"; data !! "jitter"])
             "latencyChart" (charts p)).
Proof.
  intros Hok Hts Hne. unfold updateCharts, exec. unfold mbind, M_bind.
  rewrite updateCharts_start_run.
  rewrite (updateCharts_resume_installs data ts) by assumption.
  reflexivity.
Qed.

Lemma short_term_ok_charts p q :
  charts q = charts p -> short_term_ok p -> short_term_ok q.
Proof.
  unfold short_term_ok, chart_shape. intros ->. tauto.
Qed.

(** C2. When a short-term poll ends in a rejected fetch, in a body that is
    not JSON, or in a response with an empty [timestamps] array, every
    chart is as it was before the poll.  A poll on a later tick whose
    response has samples then leaves in each bound chart the labels and
    the dataset arrays of that response and nothing of the failed tick:
    the result is the one the successful poll gives on the charts as
    they were. *)
Theorem updateCharts_failure_then_success p r :
  (r = Rejected \/ r = NotJson \/
   exists data, r = Body data /\ data !! "timestamps" = Some []) ->
  charts (exec (updateCharts r) p) = charts p /\
  (forall data ts,
     short_term_ok p -> data !! "timestamps" = Some ts -> ts <> [] ->
     charts (exec (updateCharts (Body data)) (exec (updateCharts r) p)) =
       alter (installed (Some ts) [data !! "packet_loss"]) "lossChart"
         (alter (installed (Some ts) [data !! "ping"; data !! "jitter"])
                "latencyChart" (charts p)) /\
     charts (exec (updateCharts (Body data)) (exec (updateCharts r) p)) =
       charts (exec (updateCharts (Body data)) p)).
Proof.
  intros Hfail. pose proof (updateCharts_failed_keeps p r Hfail) as Hkeep.
  split; [exact Hkeep |]. intros data ts Hok Hts Hne.
  rewrite (updateCharts_installs data ts)
    by (try assumption; apply (short_term_ok_charts p); assumption).
  rewrite (updateCharts_installs data ts p) by assumption.
  rewrite Hkeep. split; reflexivity.
Qed.

(** The shapes hold from page load on: the registries create charts with
    two and one datasets, and no poll changes the number of datasets. *)
Lemma if_chart_and_samples_no_timestamps name data body p :
  data !! "timestamps" = None ->
  charts (exec (if_chart_and_samples name data body) p) = charts p.
Proof.
  intros Hts. unfold exec, if_chart_and_samples.
  unfold mbind at 1. unfold M_bind at 1. unfold get.
  destruct (charts p !! name); [| reflexivity].
  unfold timestamps_length. rewrite Hts. reflexivity.
Qed.

Lemma keeps_charts_bind {A} (m : M page A) (k : A -> M page unit) :
  keeps_charts m -> (forall a, keeps_charts (k a)) -> keeps_charts (m ≫= k).
Proof.
  intros Hm Hk p. specialize (Hm p). unfold exec in *.
  unfold mbind, M_bind. destruct (m p) as [[a | e] p1]; simpl in *.
  - rewrite <- Hm. apply Hk.
  - exact Hm.
Qed.

Lemma keeps_charts_try (body : M page unit) msg :
  keeps_charts body -> keeps_charts (try_catch body (console_error msg)).
Proof.
  intros Hb p. specialize (Hb p). unfold exec, try_catch in *.
  destruct (body p) as [[[] | e] p1]; simpl in *; exact Hb.
Qed.

Lemma keeps_charts_guard name data body :
  data !! "timestamps" = None ->
  keeps_charts (if_chart_and_samples name data body).
Proof.
  intros Hts p. apply if_chart_and_samples_no_timestamps. exact Hts.
Qed.

Lemma updateCharts_resume_no_timestamps data :
  data !! "timestamps" = None ->
  keeps_charts (updateCharts_resume (Body data)).
Proof.
  intros Hts. unfold updateCharts_resume, await.
  apply keeps_charts_try.
  match goal with
  | |- keeps_charts (mret ?a ≫= ?K) => change (keeps_charts (K a))
  end.
  cbv beta.
  apply keeps_charts_bind; [apply keeps_charts_guard; exact Hts | intros _].
  apply keeps_charts_guard. exact Hts.
Qed.

Lemma updateCharts_keeps_shapes r p :
  short_term_ok p -> short_term_ok (exec (updateCharts r) p).
Proof.
  intros Hok.
  assert (Hcases :
    charts (exec (updateCharts r) p) = charts p \/
    exists (data : payload) ts,
      charts (exec (updateCharts r) p) =
        alter (installed (Some ts) [data !! "packet_loss"]) "lossChart"
          (alter (installed (Some ts) [data !! "ping"; data !! "jitter"])
                 "latencyChart" (charts p))).
  { destruct r as [| | data].
    - left. apply updateCharts_failed_keeps. auto.
    - left. apply updateCharts_failed_keeps. auto.
    - destruct (data !! "timestamps") as [[| t ts] |] eqn:Hts.
      + left. apply updateCharts_failed_keeps. right. right. eauto.
      + right. exists data, (t :: ts). apply updateCharts_installs; done.
      + left. unfold updateCharts, exec. unfold mbind, M_bind.
        rewrite updateCharts_start_run.
        etransitivity;
          [apply (updateCharts_resume_no_timestamps data Hts) | reflexivity]. }
  destruct Hcases as [Hsame | (data & ts & Hnew)].
  - apply (short_term_ok_charts p); assumption.
  - destruct Hok as [Hlat Hloss].
    split; intros c; rewrite Hnew.
    + rewrite lookup_alter_ne, lookup_alter_eq by done.
      destruct (charts p !! "latencyChart"); [| discriminate].
      intros [= <-]. reflexivity.
    + rewrite lookup_alter_eq, lookup_alter_ne by done.
      destruct (charts p !! "lossChart"); [| discriminate].
      intros [= <-]. reflexivity.
Qed.

Lemma create_chart_run name n p :
  create_chart name n p =
    (Returned tt,
     match elements p !! name with
     | Some _ => set_charts <[name := new_chart n]> p
     | None => p
     end).
Proof.
  unfold create_chart. unfold mbind at 1. unfold M_bind at 1. unfold get.
  destruct (elements p !! name); reflexivity.
Qed.

Lemma initCharts_shapes els btns :
  short_term_ok (exec initCharts (load els btns)).
Proof.
  unfold initCharts, exec. unfold mbind at 1. unfold M_bind at 1.
  rewrite (create_chart_run "latencyChart"). cbn [elements load].
  destruct (els !! "latencyChart");
    rewrite (create_chart_run "lossChart"); cbn [snd elements set_charts load];
    destruct (els !! "lossChart");
    split; intros c; cbn [charts set_charts elements load]; intros Hc;
    repeat (rewrite lookup_insert_ne in Hc by done);
    rewrite ?lookup_insert_eq, ?lookup_empty in Hc;
    try discriminate Hc; injection Hc as <-; reflexivity.
Qed.

Lemma dashboard_short_term_ok : short_term_ok dashboard.
Proof.
  split; intros c Hc; vm_compute in Hc; injection Hc as <-; reflexivity.
Defined.

Lemma dashboard_long_term_ok : long_term_ok dashboard.
Proof.
  repeat split; intros c Hc; vm_compute in Hc; injection Hc as <-; reflexivity.
Defined.

Lemma updateCharts_failure_then_success_on_dashboard :
  charts (exec (updateCharts Rejected) dashboard) = charts dashboard /\
  charts (exec (updateCharts (Body one_sample))
               (exec (updateCharts Rejected) dashboard)) !! "latencyChart"
    = Some {| labels := Some [Str "12:00:00"];
              datasets := [Some [Num 20]; Some [Num 2]];
              redraws := 1 |}.
Proof.
  destruct (updateCharts_failure_then_success dashboard Rejected
              (or_introl eq_refl)) as [Hkeep Hnext].
  split; [exact Hkeep |].
  destruct (Hnext one_sample [Str "12:00:00"] dashboard_short_term_ok
              eq_refl ltac:(discriminate)) as [Hcharts _].
  rewrite Hcharts. reflexivity.
Defined.

Lemma updateHistoryCharts_start_charts period p :
  exists per reqs,
    updateHistoryCharts_start period p =
      (Returned tt,
       {| charts := charts p; currentPeriod := per;
          elements := elements p; buttons := buttons p;
          requests := reqs; console := console p |}).
Proof.
  unfold updateHistoryCharts_start, adopt_period.
  destruct period as [per |]; [destruct (String.eqb per "") |];
    eexists _, _; reflexivity.
Qed.

Lemma updateHistoryCharts_resume_empty data p :
  data !! "timestamps" = Some [] ->
  updateHistoryCharts_resume (Body data) p = (Returned tt, p).
Proof.
  intros Hts. unfold updateHistoryCharts_resume, try_catch, await.
  unfold mbind at 1. unfold M_bind at 1. unfold mret at 1. unfold M_ret at 1.
  do 3 (unfold mbind at 1; unfold M_bind at 1;
        rewrite if_chart_and_samples_empty by assumption).
  rewrite if_chart_and_samples_empty by assumption. reflexivity.
Qed.

Lemma updateHistoryCharts_resume_installs data ts p :
  long_term_ok p -> data !! "timestamps" = Some ts -> ts <> [] ->
  updateHistoryCharts_resume (Body data) p =
    (Returned tt,
     set_charts (alter (installed (Some ts) [data !! "signal"]) "historySignalChart")
       (set_charts
          (alter (installed (Some ts) [data !! "packet_loss"]) "historyLossChart")
          (set_charts
             (alter (installed (Some ts) [data !! "quality"]) "historyQualityChart")
             (set_charts
                (alter (installed (Some ts) [data !! "ping"; data !! "jitter"])
                       "historyPingChart") p)))).
Proof.
  intros (Hping & Hquality & Hloss & Hsignal) Hts Hne.
  unfold updateHistoryCharts_resume, try_catch, await.
  unfold mbind at 1. unfold M_bind at 1. unfold mret at 1. unfold M_ret at 1.
  unfold mbind at 1. unfold M_bind at 1.
  rewrite (install_two _ _ ts) by assumption.
  unfold mbind at 1. unfold M_bind at 1.
  rewrite (install_one _ _ ts)
    by (try assumption; repeat (apply chart_shape_alter_other; [done |]);
        assumption).
  unfold mbind at 1. unfold M_bind at 1.
  rewrite (install_one _ _ ts)
    by (try assumption; repeat (apply chart_shape_alter_other; [done |]);
        assumption).
  rewrite (install_one _ _ ts)
    by (try assumption; repeat (apply chart_shape_alter_other; [done |]);
        assumption).
  reflexivity.
Qed.

Lemma long_term_ok_charts p q :
  charts q = charts p -> long_term_ok p -> long_term_ok q.
Proof.
  unfold long_term_ok, chart_shape. intros ->. tauto.
Qed.

Lemma updateHistoryCharts_empty period data p :
  data !! "timestamps" = Some [] ->
  charts (exec (updateHistoryCharts period (Body data)) p) = charts p.
Proof.
  intros Hts. unfold updateHistoryCharts, exec. unfold mbind, M_bind.
  destruct (updateHistoryCharts_start_charts period p) as (per & reqs & ->).
  rewrite updateHistoryCharts_resume_empty by assumption. reflexivity.
Qed.

Lemma updateHistoryCharts_installs period data ts p :
  long_term_ok p -> data !! "timestamps" = Some ts -> ts <> [] ->
  charts (exec (updateHistoryCharts period (Body data)) p) =
    alter (installed (Some ts) [data !! "signal"]) "historySignalChart"
      (alter (installed (Some ts) [data !! "packet_loss"]) "historyLossChart"
         (alter (installed (Some ts) [data !! "quality"]) "historyQualityChart"
            (alter (installed (Some ts) [data !! "ping"; data !! "jitter"])
                   "historyPingChart" (charts p)))).
Proof.
  intros Hok Hts Hne. unfold updateHistoryCharts, exec. unfold mbind, M_bind.
  destruct (updateHistoryCharts_start_charts period p) as (per & reqs & ->).
  rewrite (updateHistoryCharts_resume_installs data ts);
    [reflexivity | | assumption ..].
  apply (long_term_ok_charts p); [reflexivity | assumption].
Qed.

(** The long-term shapes hold from page load on as well. *)
Lemma updateHistoryCharts_resume_no_timestamps data :
  data !! "timestamps" = None ->
  keeps_charts (updateHistoryCharts_resume (Body data)).
Proof.
  intros Hts. unfold updateHistoryCharts_resume, await.
  apply keeps_charts_try.
  match goal with
  | |- keeps_charts (mret ?a ≫= ?K) => change (keeps_charts (K a))
  end.
  cbv beta.
  repeat (apply keeps_charts_bind;
          [apply keeps_charts_guard; exact Hts | intros _]).
  apply keeps_charts_guard. exact Hts.
Qed.

Lemma updateHistoryCharts_keeps_shapes period r p :
  long_term_ok p -> long_term_ok (exec (updateHistoryCharts period r) p).
Proof.
  intros Hok.
  assert (Hstart : forall q,
            charts (exec (updateHistoryCharts period r) p) =
            charts (exec (updateHistoryCharts_resume r) q) ->
            charts q = charts p -> long_term_ok q ->
            long_term_ok (exec (updateHistoryCharts_resume r) q) ->
            long_term_ok (exec (updateHistoryCharts period r) p)).
  { intros q Heq _ _. apply long_term_ok_charts. exact Heq. }
  destruct (updateHistoryCharts_start_charts period p) as (per & reqs & Hrun).
  eapply Hstart.
  - unfold updateHistoryCharts, exec. unfold mbind, M_bind. rewrite Hrun.
    reflexivity.
  - reflexivity.
  - apply (long_term_ok_charts p); [reflexivity | exact Hok].
  - match goal with |- long_term_ok (exec _ ?q) => set (q0 := q) end.
    assert (Hq : long_term_ok q0)
      by (apply (long_term_ok_charts p); [reflexivity | exact Hok]).
    destruct r as [| | data].
    + apply (long_term_ok_charts q0); [reflexivity | exact Hq].
    + apply (long_term_ok_charts q0); [reflexivity | exact Hq].
    + destruct (data !! "timestamps") as [[| t ts] |] eqn:Hts.
      * unfold exec. rewrite updateHistoryCharts_resume_empty by assumption.
        exact Hq.
      * unfold exec.
        rewrite (updateHistoryCharts_resume_installs data (t :: ts)) by done.
        cbn [snd]. destruct Hq as (H1 & H2 & H3 & H4).
        repeat split;
          repeat (apply chart_shape_installed ||
                  (apply chart_shape_alter_other; [done |]));
          assumption.
      * apply (long_term_ok_charts q0); [| exact Hq].
        apply updateHistoryCharts_resume_no_timestamps. exact Hts.
Qed.

Lemma initHistoryCharts_shapes els btns :
  long_term_ok (exec initHistoryCharts (load els btns)).
Proof.
  unfold initHistoryCharts, exec.
  unfold mbind at 1. unfold M_bind at 1.
  rewrite (create_chart_run "historyPingChart"). cbn [elements load].
  destruct (els !! "historyPingChart");
    unfold mbind at 1; unfold M_bind at 1;
    rewrite (create_chart_run "historyQualityChart");
    cbn [snd elements set_charts load];
    destruct (els !! "historyQualityChart");
    unfold mbind at 1; unfold M_bind at 1;
    rewrite (create_chart_run "historyLossChart");
    cbn [snd elements set_charts load];
    destruct (els !! "historyLossChart");
    rewrite (create_chart_run "historySignalChart");
    cbn [snd elements set_charts load];
    destruct (els !! "historySignalChart");
    repeat split; intros c; cbn [charts set_charts elements load]; intros Hc;
    repeat (rewrite lookup_insert_ne in Hc by done);
    rewrite ?lookup_insert_eq, ?lookup_empty in Hc;
    try discriminate Hc; injection Hc as <-; reflexivity.
Qed.

Lemma ragged_not_aligned :
  ~ aligned short_series ragged /\ ~ aligned long_series ragged.
Proof.
  split; intros [n Hn];
    pose proof (Hn "timestamps" ltac:(repeat constructor)) as Ht;
    pose proof (Hn "ping" ltac:(repeat constructor)) as Hp;
    vm_compute in Ht, Hp; congruence.
Qed.

(** C3, as stated, fails: on the initialised dashboard a response whose
    series have different lengths is rendered by both polls. *)
Lemma ragged_response_is_rendered :
  ~ aligned short_series ragged /\
  charts (exec (updateCharts (Body ragged)) dashboard) <> charts dashboard /\
  ~ aligned long_series ragged /\
  charts (exec (updateHistoryCharts None (Body ragged)) dashboard)
    <> charts dashboard.
Proof.
  destruct ragged_not_aligned as [Hshort Hlong].
  split; [exact Hshort |]. split; [| split; [exact Hlong |]].
  - intros H. apply (f_equal (fun m => labels <$> m !! "latencyChart")) in H.
    vm_compute in H. discriminate H.
  - intros H. apply (f_equal (fun m => labels <$> m !! "historyPingChart")) in H.
    vm_compute in H. discriminate H.
Qed.

(** C3, amended.  Neither poll compares the lengths of the series.  A
    response whose [timestamps] array has samples is rendered as it is:
    each bound chart gets the response's labels and dataset arrays,
    whatever their lengths.  The previous window is kept when the
    [timestamps] array is empty. *)
Theorem polls_render_without_length_check p data ts period :
  short_term_ok p -> long_term_ok p -> data !! "timestamps" = Some ts ->
  (ts = [] ->
   charts (exec (updateCharts (Body data)) p) = charts p /\
   charts (exec (updateHistoryCharts period (Body data)) p) = charts p) /\
  (ts <> [] ->
   charts (exec (updateCharts (Body data)) p) =
     alter (installed (Some ts) [data !! "packet_loss"]) "lossChart"
       (alter (installed (Some ts) [data !! "ping"; data !! "jitter"])
              "latencyChart" (charts p)) /\
   charts (exec (updateHistoryCharts period (Body data)) p) =
     alter (installed (Some ts) [data !! "signal"]) "historySignalChart"
       (alter (installed (Some ts) [data !! "packet_loss"]) "historyLossChart"
          (alter (installed (Some ts) [data !! "quality"]) "historyQualityChart"
             (alter (installed (Some ts) [data !! "ping"; data !! "jitter"])
                    "historyPingChart" (charts p))))).
Proof.
  intros Hshort Hlong Hts. split.
  - intros ->. split.
    + apply updateCharts_failed_keeps. right. right. exists data. split; done.
    + apply updateHistoryCharts_empty. assumption.
  - intros Hne. split.
    + apply updateCharts_installs; assumption.
    + apply updateHistoryCharts_installs; assumption.
Qed.

Lemma polls_render_ragged_on_dashboard :
  charts (exec (updateCharts (Body ragged)) dashboard) !! "latencyChart"
    = Some {| labels := Some [Str "12:00:00"; Str "12:00:01"];
              datasets := [Some [Num 20]; Some [Num 1; Num 2]];
              redraws := 1 |} /\
  charts (exec (updateHistoryCharts None (Body ragged)) dashboard)
    !! "historySignalChart"
    = Some {| labels := Some [Str "12:00:00"; Str "12:00:01"];
              datasets := [Some []];
              redraws := 1 |}.
Proof.
  destruct (polls_render_without_length_check dashboard ragged
              [Str "12:00:00"; Str "12:00:01"] None
              dashboard_short_term_ok dashboard_long_term_ok eq_refl)
    as [_ Hrender].
  destruct (Hrender ltac:(discriminate)) as [Hs Hl].
  rewrite Hs, Hl. split; reflexivity.
Defined.
End Polls.

(** * Further properties *)

(** ** The watcher over runs of observations *)

Section WatcherRuns.
Import App.

Lemma warnings_after score st :
  warnings (exec (checkForAlerts score) st) =
  (warnings st +
   (if ((50 <=? lastQualityScore st)%Z && (score <? 50)%Z)%bool
    then 1 else 0))%nat.
Proof.
  unfold warnings, exec. rewrite checkForAlerts_run. cbn [snd effects].
  rewrite List.filter_app, List.length_app.
  destruct ((50 <=? lastQualityScore st) && (score <? 50)); reflexivity.
Qed.

Lemma lastQualityScore_after score st :
  lastQualityScore (exec (checkForAlerts score) st) = score.
Proof. unfold exec. rewrite checkForAlerts_run. reflexivity. Qed.

Lemma observe_all_cons score rest st :
  exec (observe_all (score :: rest)) st =
  exec (observe_all rest) (exec (checkForAlerts score) st).
Proof.
  unfold exec. cbn [observe_all]. unfold mbind at 1. unfold M_bind at 1.
  rewrite checkForAlerts_run. reflexivity.
Qed.

Lemma warnings_bound scores st :
  (warnings (exec (observe_all scores) st) <=
   warnings st + (if (50 <=? lastQualityScore st)%Z then 1 else 0) +
   length (List.filter (fun s => (50 <=? s)%Z) scores))%nat.
Proof.
  revert st. induction scores as [| score rest IH]; intros st.
  - cbn. lia.
  - rewrite observe_all_cons. etransitivity; [apply IH |].
    rewrite warnings_after, lastQualityScore_after. cbn [List.filter].
    destruct (50 <=? lastQualityScore st); cbn [andb];
      destruct (score <? 50) eqn:Hlow; destruct (50 <=? score) eqn:Hhigh;
      cbn [length]; lia.
Qed.

(** X1. Over any run of observations from the initial state the number of
    alerts is at most one more than the number of observations at or above
    50, and two consecutive observations never both alert, whatever the
    state before them. *)
Theorem alerts_need_recovery :
  (forall scores,
     (warnings (exec (observe_all scores) init) <=
      1 + length (List.filter (fun s => (50 <=? s)%Z) scores))%nat) /\
  (forall st s1 s2,
     (warnings (exec (observe_all [s1; s2]) st) <= warnings st + 1)%nat).
Proof.
  split.
  - intros scores. pose proof (warnings_bound scores init) as H.
    cbn in H. cbn. lia.
  - intros st s1 s2. rewrite !observe_all_cons. cbn [observe_all].
    unfold exec at 1. cbn [mret M_ret snd].
    rewrite !warnings_after, lastQualityScore_after.
    destruct ((50 <=? lastQualityScore st) && (s1 <? 50)) eqn:H1;
      destruct ((50 <=? s1) && (s2 <? 50)) eqn:H2; lia.
Qed.

(** X2. When the quality text has no leading integer, or reads as zero, the
    afterSwap hook hands 100 to [checkForAlerts]: the stored score becomes
    100 and no alert is raised, whatever the score stored before. *)
Theorem afterSwap_unreadable_resets text st :
  parseInt text = None \/ parseInt text = Some 0 ->
  lastQualityScore (exec (htmx_afterSwap (Some text) "quality-display") st) = 100 /\
  effects (exec (htmx_afterSwap (Some text) "quality-display") st) = effects st.
Proof.
  intros Hparse.
  assert (Hscore : afterSwap_score text = 100).
  { unfold afterSwap_score. destruct Hparse as [-> | ->]; reflexivity. }
  unfold htmx_afterSwap, exec. cbn [String.eqb]. simpl.
  rewrite checkForAlerts_run, Hscore. cbn [snd lastQualityScore effects].
  split; [reflexivity |].
  replace (100 <? 50) with false by reflexivity.
  rewrite andb_false_r. apply app_nil_r.
Qed.

Lemma afterSwap_unreadable_resets_at_zero :
  lastQualityScore
    (exec (htmx_afterSwap (Some "0") "quality-display")
          (exec (checkForAlerts 80) init)) = 100 /\
  effects
    (exec (htmx_afterSwap (Some "0") "quality-display")
          (exec (checkForAlerts 80) init)) = [].
Proof.
  apply (afterSwap_unreadable_resets "0" (exec (checkForAlerts 80) init)).
  right. reflexivity.
Defined.
End WatcherRuns.

(** ** What the afterSwap hook reads from rendered text *)

Section RenderedText.
Import App.

Lemma string_app_assoc (a b c : string) : (a +:+ b) +:+ c = a +:+ (b +:+ c).
Proof.
  induction a as [| x a IH]; [reflexivity |].
  change (String x ((a +:+ b) +:+ c) = String x (a +:+ (b +:+ c))).
  f_equal. exact IH.
Qed.

Lemma pretty_N_go_app (x : N) (s : string) :
  pretty_N_go x s = pretty_N_go x "" +:+ s.
Proof.
  revert s. induction (N.lt_wf_0 x) as [x _ IH]. intros s.
  destruct (decide (x = 0)%N) as [-> | Hnz].
  - rewrite !pretty_N_go_0. reflexivity.
  - assert (Hpos : (0 < x)%N) by (apply N.neq_0_lt_0; exact Hnz).
    assert (Hlt : (x `div` 10 < x)%N) by (apply N.div_lt; lia).
    rewrite (pretty_N_go_step x s), (pretty_N_go_step x "") by assumption.
    rewrite (IH _ Hlt (String _ s)), (IH _ Hlt (String _ "")).
    rewrite string_app_assoc. reflexivity.
Qed.

Lemma trim_start_white ws s :
  all_white_space ws = true -> trim_start (ws +:+ s) = trim_start s.
Proof.
  induction ws as [| c ws IH]; intros Hws; [reflexivity |].
  cbn [all_white_space] in Hws. apply andb_true_iff in Hws as [Hc Hws].
  change (String c ws +:+ s) with (String c (ws +:+ s)).
  cbn [trim_start]. rewrite Hc. apply IH, Hws.
Qed.

Lemma parseInt_white ws s :
  all_white_space ws = true -> parseInt (ws +:+ s) = parseInt s.
Proof. intros Hws. unfold parseInt. rewrite trim_start_white by exact Hws. reflexivity. Qed.

Lemma digits_value_stops (rest : string) (acc : option Z) :
  starts_with_digit rest = false -> digits_value 10 rest acc = acc.
Proof.
  destruct rest as [| c rest]; [reflexivity |].
  cbn [starts_with_digit digits_value].
  destruct (digit_value 10 c); [discriminate | reflexivity].
Qed.

Lemma parseInt_numeral_then (x : N) (rest : string) :
  (0 < x)%N -> starts_with_digit rest = false ->
  parseInt (pretty_N_go x rest) = Some (Z.of_N x) /\
  parseInt ("-" +:+ pretty_N_go x rest) = Some (- Z.of_N x).
Proof.
  intros Hpos Hrest.
  destruct (digits_value_pretty_N_go x Hpos) as [k Hk].
  destruct (pretty_N_go_leading x rest Hpos) as (y & tail & Hy & Hlead).
  assert (Hdigits : digits_value 10 (String (pretty_N_char y) tail) None
                    = Some (Z.of_N x)).
  { rewrite <- Hlead, Hk, digits_value_stops by exact Hrest. reflexivity. }
  rewrite Hlead.
  destruct (small_cases y Hy)
    as [-> | [-> | [-> | [-> | [-> | [-> | [-> | [-> | ->]]]]]]]];
    (split;
     [ match goal with
       | |- parseInt (String ?c tail) = _ =>
           change (parseInt (String c tail))
             with (Z.mul 1 <$> digits_value 10 (String c tail) None)
       end
     | match goal with
       | |- parseInt ("-" +:+ String ?c tail) = _ =>
           change (parseInt ("-" +:+ String c tail))
             with (Z.mul (-1) <$> digits_value 10 (String c tail) None)
       end ];
     rewrite Hdigits; cbn [fmap option_fmap option_map];
     f_equal; lia).
Qed.

Lemma parseInt_pretty_then (n : Z) (rest : string) :
  n <> 0 -> starts_with_digit rest = false ->
  parseInt (pretty n +:+ rest) = Some n.
Proof.
  intros Hn Hrest. destruct n as [| q | q]; [contradiction | |].
  - change (pretty (Z.pos q)) with (pretty_N_go (N.pos q) "").
    rewrite <- pretty_N_go_app.
    destruct (parseInt_numeral_then (N.pos q) rest) as [H _];
      [lia | exact Hrest |].
    exact H.
  - change (pretty (Z.neg q)) with ("-" +:+ pretty_N_go (N.pos q) "").
    rewrite string_app_assoc, <- pretty_N_go_app.
    destruct (parseInt_numeral_then (N.pos q) rest) as [_ H];
      [lia | exact Hrest |].
    exact H.
Qed.

(** X3. A non-zero integer of magnitude at most [Number.MAX_SAFE_INTEGER],
    rendered in decimal, reaches [checkForAlerts] unchanged also when the
    text has white space before it and anything that does not start with a
    digit after it (a unit, a percent sign, markup text): the hook stores
    exactly that integer.  Beyond that magnitude the number [parseInt]
    returns is the nearest double, which need not be the integer written. *)
Theorem afterSwap_reads_numeral ws n rest st :
  all_white_space ws = true -> n <> 0 -> Z.abs n <= MAX_SAFE_INTEGER ->
  starts_with_digit rest = false ->
  afterSwap_score (ws +:+ pretty n +:+ rest) = n /\
  lastQualityScore
    (exec (htmx_afterSwap (Some (ws +:+ pretty n +:+ rest)) "quality-display") st)
  = n.
Proof.
  intros Hws Hn _ Hrest.
  assert (Hscore : afterSwap_score (ws +:+ pretty n +:+ rest) = n).
  { unfold afterSwap_score.
    rewrite parseInt_white, parseInt_pretty_then by assumption.
    destruct n; [contradiction | reflexivity ..]. }
  split; [exact Hscore |].
  rewrite htmx_afterSwap_stores. exact Hscore.
Qed.

Lemma afterSwap_reads_numeral_percent :
  afterSwap_score "  42%" = 42 /\
  lastQualityScore
    (exec (htmx_afterSwap (Some "  42%") "quality-display") init) = 42.
Proof.
  apply (afterSwap_reads_numeral "  " 42 "%" init).
  - reflexivity.
  - discriminate.
  - unfold MAX_SAFE_INTEGER. lia.
  - reflexivity.
Defined.
End RenderedText.

(** ** The audio context over repeated invocations *)

Section AudioContextReuse.
Import App.

Lemma no_construction_in ops refuses :
  forallb (fun op => negb (is_construction (Audio op))) ops = true ->
  List.filter is_construction (Audio <$> attempted refuses ops) = [].
Proof.
  induction ops as [| op ops IH]; intros Hops; [reflexivity |].
  cbn [forallb] in Hops. apply andb_true_iff in Hops as [Hop Hops].
  cbn [attempted fmap list_fmap List.filter].
  apply negb_true_iff in Hop. rewrite Hop.
  destruct (refuses op); [reflexivity | apply IH, Hops].
Qed.

Lemma playAlertSound_constructs refuses st :
  refuses NewAudioContext = false ->
  audioContext (exec (playAlertSound refuses) st) = true /\
  constructions (exec (playAlertSound refuses) st) =
    (constructions st + (if audioContext st then 0 else 1))%nat.
Proof.
  intros Hctor. unfold exec, constructions. rewrite playAlertSound_eq.
  cbn [snd audioContext effects]. rewrite Hctor. split.
  - destruct (audioContext st); reflexivity.
  - rewrite List.filter_app, List.length_app. f_equal.
    unfold playAlertSound_calls. destruct (audioContext st).
    + cbn [List.app]. rewrite no_construction_in by reflexivity. reflexivity.
    + change ([NewAudioContext] ++ synthesis_calls)
        with (NewAudioContext :: synthesis_calls).
      cbn [attempted fmap list_fmap List.filter is_construction].
      rewrite Hctor. cbn [length].
      rewrite no_construction_in by reflexivity. reflexivity.
Qed.

(** X4. On a host whose [AudioContext] constructor works, any number of
    invocations of [playAlertSound] constructs the context once: the first
    invocation does, every later one reuses it, also when other audio calls
    fail in between. *)
Theorem audio_context_constructed_once refuses n st :
  refuses NewAudioContext = false ->
  constructions (play_times refuses n st) =
    (constructions st + (if audioContext st then 0 else Nat.min 1 n))%nat.
Proof.
  intros Hctor. revert st. induction n as [| n IH]; intros st.
  - cbn. destruct (audioContext st); lia.
  - cbn [play_times]. rewrite IH.
    destruct (playAlertSound_constructs refuses st Hctor) as [-> ->].
    destruct (audioContext st); cbn; lia.
Qed.

Lemma audio_context_constructed_once_in_three :
  constructions (play_times (fun _ => false) 3 init) = 1%nat.
Proof.
  apply (audio_context_constructed_once (fun _ => false) 3 init). reflexivity.
Defined.
End AudioContextReuse.


(** ** The page-level listeners over runs of events *)

Section Listeners.
Import Host.

Lemma keydown_run key ctrlKey metaKey h :
  keydown key ctrlKey metaKey h =
    (Returned tt,
     {| watcher := watcher h;
        triggers := triggers h ++
          (if asks_refresh (KeyDown key ctrlKey metaKey) then [refresh_call] else []);
        alerts := alerts h ++
          (if asks_overlay (KeyDown key ctrlKey metaKey)
           then [overlay_instructions] else []);
        logs := logs h; posts := posts h; errors := errors h |}).
Proof.
  unfold keydown, asks_refresh, asks_overlay, launchOverlay.
  unfold mbind, M_bind, when, htmx_trigger, alert, modify, mret, M_ret.
  destruct (String.eqb key "r" && negb ctrlKey && negb metaKey);
    destruct (String.eqb key "o" && negb ctrlKey && negb metaKey);
    cbn [watcher triggers alerts logs posts errors];
    rewrite ?app_nil_r; destruct h; reflexivity.
Qed.

Lemma visibilitychange_run hidden h :
  visibilitychange hidden h =
    (Returned tt,
     {| watcher := watcher h;
        triggers := triggers h ++ (if hidden then [] else [refresh_call]);
        alerts := alerts h;
        logs := logs h ++
          [(if hidden then "Tab hidden - updates continue in background"
            else "Tab visible - resuming normal updates", [])];
        posts := posts h; errors := errors h |}).
Proof.
  unfold visibilitychange.
  unfold mbind, M_bind, console_log, htmx_trigger, modify.
  destruct hidden; cbn [watcher triggers alerts logs posts errors];
    rewrite ?app_nil_r; reflexivity.
Qed.

Lemma htmx_afterSwap_run qualityScore target_id st :
  App.htmx_afterSwap qualityScore target_id st =
    (Returned tt,
     exec (App.observe_all
             (observed_scores [AfterSwap qualityScore target_id])) st).
Proof.
  unfold App.htmx_afterSwap, observed_scores.
  change (omap observed_score [AfterSwap qualityScore target_id])
    with (match observed_score (AfterSwap qualityScore target_id) with
          | Some s => [s]
          | None => []
          end).
  cbn [observed_score].
  destruct qualityScore as [text |]; [| reflexivity].
  destruct (String.eqb target_id "quality-display"); [| reflexivity].
  rewrite observe_all_cons. cbn [App.observe_all].
  unfold exec. rewrite checkForAlerts_run. reflexivity.
Qed.

(** One event: the listener returns, and changes the page as follows. *)
Lemma dispatch_run e h :
  dispatch e h =
    (Returned tt,
     {| watcher := exec (App.observe_all (observed_scores [e])) (watcher h);
        triggers := triggers h ++ (if asks_refresh e then [refresh_call] else []);
        alerts := alerts h ++
          (if asks_overlay e then [overlay_instructions] else []);
        logs := logs (exec (dispatch e) h);
        posts := posts h; errors := errors h |}).
Proof.
  destruct e as [key ctrlKey metaKey | hidden | qualityScore target_id].
  - unfold exec. cbn [dispatch]. rewrite keydown_run. reflexivity.
  - unfold exec. cbn [dispatch]. rewrite visibilitychange_run.
    cbn [asks_overlay asks_refresh]. rewrite app_nil_r.
    destruct hidden; reflexivity.
  - unfold exec. cbn [dispatch]. unfold on_watcher.
    rewrite htmx_afterSwap_run. cbn [asks_overlay asks_refresh snd logs].
    rewrite !app_nil_r. reflexivity.
Qed.

Lemma dispatch_all_cons e rest h :
  exec (dispatch_all (e :: rest)) h = exec (dispatch_all rest) (exec (dispatch e) h).
Proof.
  unfold exec. cbn [dispatch_all]. unfold mbind at 1. unfold M_bind at 1.
  rewrite dispatch_run. reflexivity.
Qed.

Lemma observe_all_app xs ys st :
  exec (App.observe_all (xs ++ ys)) st =
  exec (App.observe_all ys) (exec (App.observe_all xs) st).
Proof.
  revert st. induction xs as [| x xs IH]; intros st; [reflexivity |].
  change ((x :: xs) ++ ys) with (x :: (xs ++ ys)).
  rewrite !observe_all_cons. apply IH.
Qed.

(** X5. Over any run of page events the watcher's state is the one
    [checkForAlerts] reaches on the scores of the swaps into
    [quality-display] alone, in order: key presses, visibility changes and
    swaps into other regions never touch the stored score or raise an
    alert. *)
Theorem events_reach_watcher_through_quality_swaps es h :
  watcher (exec (dispatch_all es) h) =
  exec (App.observe_all (observed_scores es)) (watcher h).
Proof.
  revert h. induction es as [| e rest IH]; intros h; [reflexivity |].
  rewrite dispatch_all_cons, IH.
  unfold exec at 2. rewrite dispatch_run. cbn [snd watcher].
  change (e :: rest) with ([e] ++ rest).
  unfold observed_scores at 3. rewrite omap_app.
  rewrite observe_all_app. reflexivity.
Qed.

(** X6. Over any run of page events htmx is asked to refresh
    [#metrics-grid] once for each [r] pressed without ctrl and meta and once
    each time the tab becomes visible, and the overlay instructions are
    shown once for each [o] pressed without ctrl and meta; no other event
    asks for either. *)
Theorem events_refresh_and_overlay es h :
  triggers (exec (dispatch_all es) h) =
    triggers h ++ replicate (length (List.filter asks_refresh es)) refresh_call /\
  alerts (exec (dispatch_all es) h) =
    alerts h ++ replicate (length (List.filter asks_overlay es)) overlay_instructions.
Proof.
  revert h. induction es as [| e rest IH]; intros h.
  - cbn. rewrite !app_nil_r. split; reflexivity.
  - rewrite dispatch_all_cons. destruct (IH (exec (dispatch e) h)) as [-> ->].
    unfold exec. rewrite dispatch_run. cbn [snd triggers alerts List.filter].
    rewrite <- !app_assoc.
    destruct (asks_refresh e); destruct (asks_overlay e); split; reflexivity.
Qed.

(** X7. [updatePingTarget] never throws: it sends one POST to
    [/api/ping-target] carrying the target and then logs one line.  When the
    body parses to anything but [null], the line is [data.target]: the last
    [target] member of an object, [undefined] when the object has none or
    the body is no object.  When the fetch fails, the body does not parse or
    the body is [null] (reading [data.target] throws), the line is the error
    and nothing else is logged. *)
Theorem updatePingTarget_contained target r h :
  result (updatePingTarget target r) h = Returned tt /\
  posts (exec (updatePingTarget target r) h) =
    posts h ++ [("/api/ping-target", target)] /\
  match r with
  | Charts.Body JNull =>
      logs (exec (updatePingTarget target r) h) = logs h /\
      errors (exec (updatePingTarget target r) h) =
        errors h ++ [("Error updating ping target:",
                      TypeError "Cannot read properties of null")]
  | Charts.Body (JObject members) =>
      logs (exec (updatePingTarget target r) h) =
        logs h ++ [("Ping target updated:", [member "target" members])] /\
      errors (exec (updatePingTarget target r) h) = errors h
  | Charts.Body (JBool _ | JNumber _ | JString _ | JArray _) =>
      logs (exec (updatePingTarget target r) h) =
        logs h ++ [("Ping target updated:", [None])] /\
      errors (exec (updatePingTarget target r) h) = errors h
  | Charts.Rejected =>
      logs (exec (updatePingTarget target r) h) = logs h /\
      errors (exec (updatePingTarget target r) h) =
        errors h ++ [("Error updating ping target:", NetworkError)]
  | Charts.NotJson =>
      logs (exec (updatePingTarget target r) h) = logs h /\
      errors (exec (updatePingTarget target r) h) =
        errors h ++ [("Error updating ping target:", SyntaxError)]
  end.
Proof.
  destruct r as [| | data]; [| | destruct data]; repeat split; reflexivity.
Qed.
End Listeners.

(** ** What the polls never do *)

Section PollSafety.
Import Charts.

Lemma try_catch_returns (body : M page unit) msg p :
  result (try_catch body (console_error msg)) p = Returned tt.
Proof.
  unfold result, try_catch. destruct (body p) as [[[] | e] q]; reflexivity.
Qed.

Lemma result_after_start (start resume : M page unit) p :
  result start p = Returned tt ->
  (forall q, result resume q = Returned tt) ->
  result (start ;; resume) p = Returned tt.
Proof.
  unfold result. intros Hs Hr. unfold mbind, M_bind.
  destruct (start p) as [[[] | e] q]; [apply Hr | discriminate Hs].
Qed.

Lemma start_returns period p :
  result (updateHistoryCharts_start period) p = Returned tt /\
  result (updateLongtermScore_start period) p = Returned tt.
Proof.
  unfold updateHistoryCharts_start, updateLongtermScore_start, adopt_period.
  destruct period as [per |]; [destruct (String.eqb per "") |];
    split; reflexivity.
Qed.

(** X8. No poll throws to the timer or listener that started it, whatever
    the response and whatever the page holds: every failure inside
    [updateCharts], [updateHistoryCharts] and [updateLongtermScore] ends in
    the function's own handler. *)
Theorem polls_never_throw p period (r : settled payload) (r' : settled score_data) :
  result (updateCharts r) p = Returned tt /\
  result (updateHistoryCharts period r) p = Returned tt /\
  result (updateLongtermScore period r') p = Returned tt.
Proof.
  split; [| split].
  - apply result_after_start; [reflexivity |].
    intros q. apply try_catch_returns.
  - apply result_after_start; [apply start_returns |].
    intros q. apply try_catch_returns.
  - apply result_after_start; [apply start_returns |].
    intros q. apply try_catch_returns.
Qed.

Lemma same_besides_refl names p : same_besides names p p.
Proof. repeat split. Qed.

Lemma same_besides_trans names p q r :
  same_besides names p q -> same_besides names q r -> same_besides names p r.
Proof.
  intros (He & Hb & Hc & Hk) (He' & Hb' & Hc' & Hk').
  repeat split; try congruence.
  intros k Hnot. rewrite Hk', Hk by assumption. reflexivity.
Qed.

Lemma confined_bind {A B} names (m : M page A) (k : A -> M page B) :
  confined names m -> (forall a, confined names (k a)) ->
  confined names (m ≫= k).
Proof.
  intros Hm Hk p. specialize (Hm p). unfold exec in *.
  unfold mbind, M_bind. destruct (m p) as [[a | e] q]; cbn [snd] in *.
  - eapply same_besides_trans; [exact Hm | apply Hk].
  - exact Hm.
Qed.

Lemma confined_ret {A} names (a : A) : confined names (mret a : M page A).
Proof. intros p. apply same_besides_refl. Qed.

Lemma confined_alter names name f :
  name ∈ names -> confined names (modify (set_charts (alter f name))).
Proof.
  intros Hin p. repeat split. intros k Hk. cbn.
  apply lookup_alter_ne. intros ->. contradiction.
Qed.

Lemma confined_console names msg e : confined names (console_error msg e).
Proof. intros p. repeat split. Qed.

Lemma confined_fetch names url : confined names (fetch url).
Proof. intros p. repeat split. Qed.

Lemma confined_try names (body : M page unit) msg :
  confined names body -> confined names (try_catch body (console_error msg)).
Proof.
  intros Hb p. specialize (Hb p). unfold exec, try_catch in *.
  destruct (body p) as [[[] | e] q]; cbn [snd] in *; [exact Hb |].
  eapply same_besides_trans; [exact Hb | apply confined_console].
Qed.

Lemma confined_assign_data names name i v :
  name ∈ names -> confined names (assign_data name i v).
Proof.
  intros Hin p. unfold assign_data, exec.
  unfold mbind at 1. unfold M_bind at 1. unfold get.
  destruct (charts p !! name ≫= (fun c => datasets c !! i)).
  - apply (confined_alter names name _ Hin p).
  - apply same_besides_refl.
Qed.

Lemma confined_guard names name data body :
  confined names body -> confined names (if_chart_and_samples name data body).
Proof.
  intros Hb p. unfold if_chart_and_samples, exec.
  unfold mbind at 1. unfold M_bind at 1. unfold get.
  destruct (charts p !! name); [| apply same_besides_refl].
  unfold timestamps_length.
  destruct (data !! "timestamps") as [ts |]; [| apply same_besides_refl].
  unfold mbind, M_bind, mret, M_ret, when.
  destruct (0 <? length ts)%nat; [apply Hb | apply same_besides_refl].
Qed.

Lemma confined_await {A} names (r : settled A) : confined names (await r).
Proof. intros p. destruct r; apply same_besides_refl. Qed.

Ltac confined_block :=
  apply confined_guard;
  repeat (apply confined_bind; [| intros _]);
  first [ apply confined_alter | apply confined_assign_data ];
  repeat (apply list_elem_of_here || apply list_elem_of_further).

Lemma updateCharts_resume_confined r :
  confined ["latencyChart"; "lossChart"] (updateCharts_resume r).
Proof.
  unfold updateCharts_resume. apply confined_try.
  apply confined_bind; [apply confined_await | intros data].
  apply confined_bind; [| intros _]; confined_block.
Qed.

Lemma updateHistoryCharts_resume_confined r :
  confined ["historyPingChart"; "historyQualityChart"; "historyLossChart";
            "historySignalChart"] (updateHistoryCharts_resume r).
Proof.
  unfold updateHistoryCharts_resume. apply confined_try.
  apply confined_bind; [apply confined_await | intros data].
  repeat (apply confined_bind; [| intros _]); confined_block.
Qed.

Lemma keeps_charts_write id f : keeps_charts (write_element id f).
Proof.
  intros p. unfold write_element, exec.
  unfold mbind at 1. unfold M_bind at 1. unfold get.
  destruct (elements p !! id); reflexivity.
Qed.

Lemma keeps_charts_updateDetailBar prefix s : keeps_charts (updateDetailBar prefix s).
Proof.
  unfold updateDetailBar. apply keeps_charts_bind; [intros p; reflexivity |].
  intros q.
  destruct (elements q !! (prefix +:+ "-bar")),
    (elements q !! (prefix +:+ "-score")); try (intros p; reflexivity).
  repeat (apply keeps_charts_bind; [apply keeps_charts_write | intros _]).
  apply keeps_charts_write.
Qed.

Lemma updateLongtermScore_resume_keeps_charts r :
  keeps_charts (updateLongtermScore_resume r).
Proof.
  unfold updateLongtermScore_resume. apply keeps_charts_try.
  apply keeps_charts_bind; [intros p; destruct r; reflexivity | intros data].
  repeat (apply keeps_charts_bind; [apply keeps_charts_write | intros _]).
  destruct (details data) as [d |]; [| intros p; reflexivity].
  repeat (apply keeps_charts_bind; [apply keeps_charts_updateDetailBar | intros _]).
  apply keeps_charts_write.
Qed.

(** X9. The three updates keep to their own part of the page.  Once its
    response has settled, a short-term poll changes no chart other than
    [latencyChart] and [lossChart], a long-term poll none other than the
    four history charts, and neither changes a DOM element, a period control
    or the active period; the score update changes no chart at all. *)
Theorem updates_keep_to_their_charts (r : settled payload) (r' : settled score_data) :
  confined ["latencyChart"; "lossChart"] (updateCharts_resume r) /\
  confined ["historyPingChart"; "historyQualityChart"; "historyLossChart";
            "historySignalChart"] (updateHistoryCharts_resume r) /\
  keeps_charts (updateLongtermScore_resume r').
Proof.
  split; [apply updateCharts_resume_confined |].
  split; [apply updateHistoryCharts_resume_confined |].
  apply updateLongtermScore_resume_keeps_charts.
Qed.
End PollSafety.

(** ** Runs of short-term polls *)

Section PollRuns.
Import Charts.

Lemma accepted_iff (r : settled payload) :
  accepted r = true <->
  exists data t ts, r = Body data /\ data !! "timestamps" = Some (t :: ts).
Proof.
  unfold accepted. split.
  - destruct r as [| | data]; try discriminate.
    destruct (data !! "timestamps") as [[| t ts] |] eqn:Hts; try discriminate.
    intros _. exists data, t, ts. split; [reflexivity | exact Hts].
  - intros (data & t & ts & -> & Hts). rewrite Hts. reflexivity.
Qed.

(** What a settled response does to the charts, by whether it is accepted. *)
Lemma updateCharts_resume_charts r p :
  short_term_ok p ->
  charts (exec (updateCharts_resume r) p) =
    match r with
    | Body data =>
        if accepted r
        then alter (installed (data !! "timestamps") [data !! "packet_loss"])
               "lossChart"
               (alter (installed (data !! "timestamps")
                         [data !! "ping"; data !! "jitter"])
                      "latencyChart" (charts p))
        else charts p
    | _ => charts p
    end.
Proof.
  intros Hok. destruct r as [| | data]; [reflexivity | reflexivity |].
  unfold accepted.
  destruct (data !! "timestamps") as [[| t ts] |] eqn:Hts.
  - unfold exec. rewrite updateCharts_resume_empty by exact Hts. reflexivity.
  - unfold exec.
    rewrite (updateCharts_resume_installs data (t :: ts)) by done.
    reflexivity.
  - apply updateCharts_resume_no_timestamps. exact Hts.
Qed.

Lemma updateCharts_resume_keeps_shapes r p :
  short_term_ok p -> short_term_ok (exec (updateCharts_resume r) p).
Proof.
  intros Hok. pose proof (updateCharts_resume_charts r p Hok) as Hc.
  destruct r as [| | data]; try (apply (short_term_ok_charts p); assumption).
  destruct (accepted (Body data));
    [| apply (short_term_ok_charts p); assumption].
  destruct Hok as [Hlat Hloss]. split; intros c; rewrite Hc.
  - rewrite lookup_alter_ne, lookup_alter_eq by done.
    destruct (charts p !! "latencyChart"); [| discriminate].
    intros [= <-]. reflexivity.
  - rewrite lookup_alter_eq, lookup_alter_ne by done.
    destruct (charts p !! "lossChart"); [| discriminate].
    intros [= <-]. reflexivity.
Qed.

Lemma contents_installed_twice ts ds ts' ds' ts2 ds2 ts2' ds2'
    (m : gmap string chart) :
  content <$>
    alter (installed ts ds) "lossChart"
      (alter (installed ts' ds') "latencyChart"
         (alter (installed ts2 ds2) "lossChart"
            (alter (installed ts2' ds2') "latencyChart" m))) =
  content <$>
    alter (installed ts ds) "lossChart"
      (alter (installed ts' ds') "latencyChart" m).
Proof.
  apply map_eq. intros k. rewrite !lookup_fmap.
  destruct (decide (k = "lossChart")) as [-> | Hloss].
  - rewrite !lookup_alter_eq.
    rewrite !(lookup_alter_ne _ _ "latencyChart" "lossChart") by done.
    rewrite lookup_alter_eq.
    rewrite !(lookup_alter_ne _ _ "latencyChart" "lossChart") by done.
    destruct (m !! "lossChart"); reflexivity.
  - rewrite !(lookup_alter_ne _ _ "lossChart" k) by done.
    destruct (decide (k = "latencyChart")) as [-> | Hlat].
    + rewrite !lookup_alter_eq.
      rewrite !(lookup_alter_ne _ _ "lossChart" "latencyChart") by done.
      rewrite lookup_alter_eq.
      destruct (m !! "latencyChart"); reflexivity.
    + rewrite !(lookup_alter_ne _ _ "latencyChart" k) by done.
      rewrite !(lookup_alter_ne _ _ "lossChart" k) by done.
      rewrite !(lookup_alter_ne _ _ "latencyChart" k) by done.
      reflexivity.
Qed.

(** X10. The response applied last decides what the short-term charts show:
    after an accepted response the labels and dataset arrays of every chart
    are the same whatever response was applied just before it, be it a
    failure, an empty one or another accepted one.  When two polls overlap
    and the older response settles last, the charts therefore show the
    older data. *)
Theorem last_applied_response_wins p r (data : payload) t ts :
  short_term_ok p -> data !! "timestamps" = Some (t :: ts) ->
  contents (exec (updateCharts_resume (Body data))
                 (exec (updateCharts_resume r) p)) =
  contents (exec (updateCharts_resume (Body data)) p).
Proof.
  intros Hok Hts. unfold contents.
  assert (Hacc : accepted (Body data) = true)
    by (apply accepted_iff; eauto).
  rewrite (updateCharts_resume_charts (Body data))
    by (apply updateCharts_resume_keeps_shapes; exact Hok).
  rewrite (updateCharts_resume_charts (Body data) p) by exact Hok.
  rewrite Hacc. rewrite (updateCharts_resume_charts r p) by exact Hok.
  destruct r as [| | earlier]; try reflexivity.
  destruct (accepted (Body earlier)); [| reflexivity].
  apply contents_installed_twice.
Qed.

Lemma last_applied_response_wins_stale :
  contents (exec (updateCharts_resume (Body one_sample))
                 (exec (updateCharts_resume (Body ragged)) dashboard)) =
  contents (exec (updateCharts_resume (Body one_sample)) dashboard).
Proof.
  apply (last_applied_response_wins dashboard (Body ragged) one_sample
           (Str "12:00:00") []).
  - exact dashboard_short_term_ok.
  - reflexivity.
Defined.

Lemma poll_all_cons r rest p :
  exec (poll_all (r :: rest)) p = exec (poll_all rest) (exec (updateCharts r) p).
Proof.
  unfold exec. cbn [poll_all]. unfold mbind at 1. unfold M_bind at 1.
  pose proof (polls_never_throw p None r Rejected) as [Hr _].
  unfold result in Hr. destruct (updateCharts r p) as [[[] | e] q];
    [reflexivity | discriminate Hr].
Qed.

Lemma updateCharts_charts r p :
  charts (exec (updateCharts r) p) = charts (exec (updateCharts_resume r)
    (exec updateCharts_start p)).
Proof.
  unfold updateCharts, exec. unfold mbind, M_bind.
  rewrite updateCharts_start_run. reflexivity.
Qed.

Lemma updateCharts_redraws r p name c :
  short_term_ok p -> name ∈ ["latencyChart"; "lossChart"] ->
  charts p !! name = Some c ->
  exists c',
    charts (exec (updateCharts r) p) !! name = Some c' /\
    redraws c' = (redraws c + (if accepted r then 1 else 0))%nat.
Proof.
  intros Hok Hin Hc. rewrite updateCharts_charts.
  rewrite updateCharts_resume_charts
    by (apply (short_term_ok_charts p); [reflexivity | exact Hok]).
  change (charts (exec updateCharts_start p)) with (charts p).
  assert (Hkeep : exists c', charts p !! name = Some c' /\
                             redraws c' = (redraws c + 0)%nat)
    by (exists c; split; [exact Hc | lia]).
  destruct r as [| | data]; try exact Hkeep.
  destruct (accepted (Body data)); [| exact Hkeep].
  apply elem_of_cons in Hin as [-> | Hin].
  - rewrite lookup_alter_ne, lookup_alter_eq, Hc by done.
    eexists. split; [reflexivity |]. cbn. lia.
  - apply list_elem_of_singleton in Hin as ->.
    rewrite lookup_alter_eq, lookup_alter_ne, Hc by done.
    eexists. split; [reflexivity |]. cbn. lia.
Qed.

(** X11. Over any run of short-term polls, each chart that is bound is
    redrawn exactly once per accepted response (a body whose [timestamps]
    array has samples) and never for a failed or an empty one. *)
Theorem redraws_count_accepted_responses rs p name c :
  short_term_ok p -> name ∈ ["latencyChart"; "lossChart"] ->
  charts p !! name = Some c ->
  exists c',
    charts (exec (poll_all rs) p) !! name = Some c' /\
    redraws c' = (redraws c + length (List.filter accepted rs))%nat.
Proof.
  intros Hok Hin. revert p c Hok.
  induction rs as [| r rest IH]; intros p c Hok Hc.
  - exists c. split; [exact Hc | cbn; lia].
  - rewrite poll_all_cons.
    destruct (updateCharts_redraws r p name c Hok Hin Hc) as (c1 & Hc1 & Hr1).
    destruct (IH (exec (updateCharts r) p) c1
                (updateCharts_keeps_shapes r p Hok) Hc1) as (c' & Hc' & Hr').
    exists c'. split; [exact Hc' |].
    rewrite Hr', Hr1. cbn [List.filter].
    destruct (accepted r); cbn [length]; lia.
Qed.

Lemma redraws_count_accepted_responses_on_dashboard :
  exists c',
    charts (exec (poll_all [Rejected; Body one_sample; NotJson; Body ragged])
                 dashboard) !! "lossChart" = Some c' /\
    redraws c' = 2%nat.
Proof.
  apply (redraws_count_accepted_responses
           [Rejected; Body one_sample; NotJson; Body ragged]
           dashboard "lossChart" (new_chart 1)).
  - exact dashboard_short_term_ok.
  - apply list_elem_of_further, list_elem_of_here.
  - reflexivity.
Defined.

(** X12. A body without a [timestamps] property changes no chart.  It ends
    in one logged [TypeError] when at least one of the two short-term charts
    is bound, and in nothing at all when neither is: the length is only read
    behind the test of the chart variable. *)
Theorem missing_timestamps_logged_if_chart_bound (data : payload) p :
  data !! "timestamps" = None ->
  charts (exec (updateCharts_resume (Body data)) p) = charts p /\
  console (exec (updateCharts_resume (Body data)) p) =
    console p ++
    match charts p !! "latencyChart", charts p !! "lossChart" with
    | None, None => []
    | _, _ => [no_timestamps_error]
    end.
Proof.
  intros Hts. split; [apply updateCharts_resume_no_timestamps; exact Hts |].
  unfold exec, updateCharts_resume, try_catch, await.
  unfold mbind at 1. unfold M_bind at 1. unfold mret at 1. unfold M_ret at 1.
  unfold mbind at 1. unfold M_bind at 1.
  unfold if_chart_and_samples at 1.
  unfold mbind at 1. unfold M_bind at 1. unfold get at 1.
  destruct (charts p !! "latencyChart") as [c |] eqn:Hlat.
  - unfold timestamps_length. rewrite Hts. reflexivity.
  - unfold mret at 1. unfold M_ret at 1.
    unfold if_chart_and_samples.
    unfold mbind at 1. unfold M_bind at 1. unfold get.
    destruct (charts p !! "lossChart") as [c |] eqn:Hloss.
    + unfold timestamps_length. rewrite Hts. reflexivity.
    + cbn. rewrite app_nil_r. reflexivity.
Qed.

Lemma missing_timestamps_logged_on_dashboard :
  charts (exec (updateCharts_resume (Body ∅)) dashboard) = charts dashboard /\
  console (exec (updateCharts_resume (Body ∅)) dashboard) = [no_timestamps_error].
Proof.
  apply (missing_timestamps_logged_if_chart_bound ∅ dashboard). reflexivity.
Defined.

Lemma create_chart_lookup name n p k :
  charts (exec (create_chart name n) p) !! k =
    if decide (k = name)
    then match elements p !! name with
         | Some _ => Some (new_chart n)
         | None => charts p !! k
         end
    else charts p !! k.
Proof.
  unfold exec. rewrite create_chart_run. cbn [snd].
  destruct (elements p !! name).
  - cbn [charts set_charts]. destruct (decide (k = name)) as [-> | Hne].
    + apply lookup_insert_eq.
    + apply lookup_insert_ne. congruence.
  - destruct (decide (k = name)); reflexivity.
Qed.

Lemma create_chart_elements name n p :
  elements (exec (create_chart name n) p) = elements p.
Proof.
  unfold exec. rewrite create_chart_run. cbn [snd].
  destruct (elements p !! name); reflexivity.
Qed.

Lemma exec_bind_create name n (k : M page unit) p :
  exec (create_chart name n ;; k) p = exec k (exec (create_chart name n) p).
Proof.
  unfold exec. unfold mbind at 1. unfold M_bind at 1.
  rewrite create_chart_run. reflexivity.
Qed.

(** X13. After both registries have run on a freshly loaded page, a chart
    variable is bound exactly when it is one of the six charts and its
    canvas is on the page; a chart that is bound starts with empty labels
    and with its two (latency, history ping) or one empty datasets, and a
    missing canvas is skipped without an error. *)
Theorem charts_bound_where_canvas_exists els btns name :
  result (initCharts ;; initHistoryCharts) (load els btns) = Returned tt /\
  charts (exec (initCharts ;; initHistoryCharts) (load els btns)) !! name =
    match chart_arity name, els !! name with
    | Some n, Some _ => Some (new_chart n)
    | _, _ => None
    end.
Proof.
  split.
  { unfold result, initCharts, initHistoryCharts.
    unfold mbind, M_bind. rewrite !create_chart_run. reflexivity. }
  unfold initCharts, initHistoryCharts.
  assert (Hrun :
    exec ((create_chart "latencyChart" 2 ;; create_chart "lossChart" 1) ;;
          create_chart "historyPingChart" 2 ;;
          create_chart "historyQualityChart" 1 ;;
          create_chart "historyLossChart" 1 ;;
          create_chart "historySignalChart" 1) (load els btns) =
    exec (create_chart "historySignalChart" 1)
      (exec (create_chart "historyLossChart" 1)
         (exec (create_chart "historyQualityChart" 1)
            (exec (create_chart "historyPingChart" 2)
               (exec (create_chart "lossChart" 1)
                  (exec (create_chart "latencyChart" 2) (load els btns))))))).
  { unfold exec. unfold mbind, M_bind. rewrite !create_chart_run. reflexivity. }
  rewrite Hrun. clear Hrun.
  rewrite !create_chart_lookup, !create_chart_elements.
  cbn [elements charts load]. rewrite lookup_empty.
  unfold chart_arity.
  repeat (destruct (decide (name = _)) as [-> | ?];
          [ repeat (destruct (decide (_ = _)) as [? | ?]; [discriminate |]);
            destruct (els !! _); reflexivity | ]).
  destruct (els !! name); reflexivity.
Qed.
End PollRuns.

(** ** More on the period selector *)

Section PeriodControls.
Import Charts.

Lemma period_click_state p i this :
  buttons p !! i = Some this ->
  period_click i p =
    (Returned tt,
     let period :=
       match dataset_period this with
       | Some per => if String.eqb per "" then currentPeriod p else per
       | None => currentPeriod p
       end in
     {| charts := charts p;
        currentPeriod := period;
        elements := elements p;
        buttons := alter (button_add "active") i
                     (button_remove "active" <$> buttons p);
        requests := requests p ++
                    ["/api/long-term-history?period=" +:+ period;
                     "/api/longterm-score?period=" +:+ period];
        console := console p |}).
Proof.
  intros Hthis.
  unfold period_click. unfold mbind at 1. unfold M_bind at 1. unfold get.
  rewrite Hthis.
  unfold updateHistoryCharts_start, updateLongtermScore_start, adopt_period.
  cbv zeta.
  destruct (dataset_period this) as [per |];
    [destruct (String.eqb per "") eqn:Hper |];
    unfold mbind, M_bind, modify, fetch, get, set_buttons, set_currentPeriod;
    cbn; rewrite ?Hper; unfold modify; cbn;
    rewrite <- app_assoc; reflexivity.
Qed.

Lemma history_tick_run p :
  history_tick p =
    (Returned tt,
     {| charts := charts p; currentPeriod := currentPeriod p;
        elements := elements p; buttons := buttons p;
        requests := requests p ++
                    ["/api/long-term-history?period=" +:+ currentPeriod p;
                     "/api/longterm-score?period=" +:+ currentPeriod p];
        console := console p |}).
Proof.
  unfold history_tick, updateHistoryCharts_start, updateLongtermScore_start,
    adopt_period.
  unfold mbind, M_bind, fetch, modify, get, mret, M_ret.
  cbn [charts currentPeriod elements buttons requests console].
  rewrite <- app_assoc. reflexivity.
Qed.

(** X14. A period chosen by a click stays in force for the periodic refresh:
    the 60-second tick that follows the click asks both endpoints for the
    clicked period again, and the active period is still the clicked one. *)
Theorem clicked_period_persists p i this per :
  buttons p !! i = Some this -> dataset_period this = Some per -> per <> "" ->
  requests (exec history_tick (exec (period_click i) p)) =
    requests p ++ ["/api/long-term-history?period=" +:+ per;
                   "/api/longterm-score?period=" +:+ per;
                   "/api/long-term-history?period=" +:+ per;
                   "/api/longterm-score?period=" +:+ per] /\
  currentPeriod (exec history_tick (exec (period_click i) p)) = per.
Proof.
  intros Hthis Hper Hne. apply String.eqb_neq in Hne.
  unfold exec. rewrite (period_click_state p i this Hthis), history_tick_run.
  rewrite Hper, Hne. cbn [snd requests currentPeriod].
  rewrite <- app_assoc. split; reflexivity.
Qed.

Lemma clicked_period_persists_week :
  requests (exec history_tick (exec (period_click 1) selector_page)) =
    ["/api/long-term-history?period=week"; "/api/longterm-score?period=week";
     "/api/long-term-history?period=week"; "/api/longterm-score?period=week"] /\
  currentPeriod (exec history_tick (exec (period_click 1) selector_page)) = "week".
Proof.
  apply (clicked_period_persists selector_page 1
           {| classList := ["period-btn"]; dataset_period := Some "week" |}
           "week").
  - reflexivity.
  - reflexivity.
  - discriminate.
Defined.

(** X15. A click on a control that has no [data-period], or an empty one,
    still moves the active marker to that control, but the two requests it
    issues carry the period that was active before, and the active period
    is unchanged. *)
Theorem click_without_period_keeps_period p i this :
  buttons p !! i = Some this ->
  dataset_period this = None \/ dataset_period this = Some "" ->
  requests (exec (period_click i) p) =
    requests p ++ ["/api/long-term-history?period=" +:+ currentPeriod p;
                   "/api/longterm-score?period=" +:+ currentPeriod p] /\
  currentPeriod (exec (period_click i) p) = currentPeriod p /\
  (forall j b, buttons (exec (period_click i) p) !! j = Some b ->
               (is_active b <-> j = i)).
Proof.
  intros Hthis Hper. unfold exec.
  rewrite (period_click_state p i this Hthis).
  cbn [snd requests currentPeriod buttons].
  assert (Hsame : match dataset_period this with
                  | Some per => if String.eqb per "" then currentPeriod p else per
                  | None => currentPeriod p
                  end = currentPeriod p)
    by (destruct Hper as [-> | ->]; reflexivity).
  rewrite Hsame. split; [reflexivity |]. split; [reflexivity |].
  intros j b Hb. destruct (decide (j = i)) as [-> | Hji].
  - rewrite list_lookup_alter_eq, list_lookup_fmap, Hthis in Hb.
    injection Hb as <-. split; [reflexivity |]. intros _.
    apply tokens_add_there.
  - rewrite list_lookup_alter_ne, list_lookup_fmap in Hb by done.
    destruct (buttons p !! j) as [b0 |]; [| discriminate].
    injection Hb as <-. split; [| contradiction].
    intros Hact. exfalso. revert Hact. apply tokens_remove_gone.
Qed.

Lemma click_without_period_keeps_period_day :
  requests (exec (period_click 0)
              (load ∅ [ {| classList := ["period-btn"]; dataset_period := None |} ])) =
    ["/api/long-term-history?period=day"; "/api/longterm-score?period=day"] /\
  currentPeriod (exec (period_click 0)
              (load ∅ [ {| classList := ["period-btn"]; dataset_period := None |} ]))
    = "day" /\
  (forall j b,
     buttons (exec (period_click 0)
              (load ∅ [ {| classList := ["period-btn"]; dataset_period := None |} ]))
       !! j = Some b ->
     (is_active b <-> j = 0%nat)).
Proof.
  apply (click_without_period_keeps_period
           (load ∅ [ {| classList := ["period-btn"]; dataset_period := None |} ])
           0 {| classList := ["period-btn"]; dataset_period := None |}).
  - reflexivity.
  - left. reflexivity.
Defined.

Lemma tokens_remove_other token t cls :
  t <> token -> (t ∈ tokens_remove token cls <-> t ∈ cls).
Proof.
  intros Hne. unfold tokens_remove. rewrite list_elem_of_filter. tauto.
Qed.

Lemma tokens_add_other token t cls :
  t <> token -> (t ∈ tokens_add token cls <-> t ∈ cls).
Proof.
  intros Hne. unfold tokens_add. destruct (decide (token ∈ cls)); [tauto |].
  rewrite elem_of_app, list_elem_of_singleton. tauto.
Qed.

Lemma period_click_buttons p i :
  buttons (exec (period_click i) p) =
    match buttons p !! i with
    | Some _ => alter (button_add "active") i
                  (button_remove "active" <$> buttons p)
    | None => buttons p
    end.
Proof.
  destruct (buttons p !! i) as [this |] eqn:Hthis.
  - unfold exec. rewrite (period_click_state p i this Hthis). reflexivity.
  - unfold exec, period_click. unfold mbind at 1. unfold M_bind at 1.
    unfold get. rewrite Hthis. reflexivity.
Qed.

(** X16. A click changes nothing on the controls but the active marker:
    every control is still there, keeps its [data-period], and carries each
    class other than [active] exactly when it carried it before. *)
Theorem click_changes_only_active_marker p i j b :
  buttons p !! j = Some b ->
  exists b',
    buttons (exec (period_click i) p) !! j = Some b' /\
    dataset_period b' = dataset_period b /\
    forall t, t <> "active" -> (t ∈ classList b' <-> t ∈ classList b).
Proof.
  intros Hb. rewrite period_click_buttons.
  destruct (buttons p !! i) as [this |] eqn:Hthis.
  - destruct (decide (i = j)) as [-> | Hij].
    + rewrite list_lookup_alter_eq, list_lookup_fmap, Hb. cbn.
      eexists. split; [reflexivity |]. split; [reflexivity |].
      intros t Ht. cbn [classList button_add button_remove].
      rewrite tokens_add_other, tokens_remove_other by exact Ht. reflexivity.
    + rewrite list_lookup_alter_ne, list_lookup_fmap, Hb by exact Hij. cbn.
      eexists. split; [reflexivity |]. split; [reflexivity |].
      intros t Ht. cbn [classList button_remove].
      apply tokens_remove_other. exact Ht.
  - exists b. split; [exact Hb |]. split; [reflexivity |]. tauto.
Qed.

Lemma click_changes_only_active_marker_day :
  exists b',
    buttons (exec (period_click 1) selector_page) !! 0%nat = Some b' /\
    dataset_period b' = Some "day" /\
    forall t, t <> "active" ->
              (t ∈ classList b' <-> t ∈ ["period-btn"; "active"]).
Proof.
  apply (click_changes_only_active_marker selector_page 1 0
           {| classList := ["period-btn"; "active"];
              dataset_period := Some "day" |}).
  reflexivity.
Defined.

Lemma tokens_remove_idem token cls :
  tokens_remove token (tokens_remove token cls) = tokens_remove token cls.
Proof.
  unfold tokens_remove. induction cls as [| c cls IH]; [reflexivity |].
  rewrite (filter_cons _ c cls). destruct (decide (c <> token)) as [Hc | Hc].
  - rewrite filter_cons_True by exact Hc. rewrite IH. reflexivity.
  - exact IH.
Qed.

Lemma tokens_remove_add token cls :
  tokens_remove token (tokens_add token cls) = tokens_remove token cls.
Proof.
  unfold tokens_add. destruct (decide (token ∈ cls)); [reflexivity |].
  unfold tokens_remove. rewrite filter_app.
  rewrite (filter_cons_False _ token []) by (intros H; apply H; reflexivity).
  rewrite filter_nil. apply app_nil_r.
Qed.

(** X17. Clicking the same control twice leaves the controls as one click
    does: class lists do not grow, and the marker stays where it is. *)
Theorem click_twice_as_once p i :
  buttons (exec (period_click i) (exec (period_click i) p)) =
  buttons (exec (period_click i) p).
Proof.
  rewrite (period_click_buttons (exec (period_click i) p)).
  rewrite !period_click_buttons.
  destruct (buttons p !! i) as [this |] eqn:Hthis; [| rewrite Hthis; reflexivity].
  rewrite list_lookup_alter_eq, list_lookup_fmap, Hthis. cbn [fmap option_fmap option_map].
  apply list_eq. intros j.
  destruct (decide (i = j)) as [-> | Hij].
  - rewrite !list_lookup_alter_eq, !list_lookup_fmap.
    rewrite list_lookup_alter_eq, list_lookup_fmap.
    destruct (buttons p !! j) as [b |]; [| reflexivity]. cbn.
    unfold button_add, button_remove. cbn [classList dataset_period].
    rewrite tokens_remove_add, tokens_remove_idem. reflexivity.
  - rewrite !list_lookup_alter_ne, !list_lookup_fmap by exact Hij.
    rewrite list_lookup_alter_ne, list_lookup_fmap by exact Hij.
    destruct (buttons p !! j) as [b |]; [| reflexivity]. cbn.
    unfold button_remove. cbn [classList dataset_period].
    rewrite tokens_remove_idem. reflexivity.
Qed.
End PeriodControls.


(** ** More on the score panel *)

Section PanelWrites.
Import Charts.

Lemma updateDetailBar_missing prefix s p :
  elements p !! (prefix +:+ "-bar") = None \/
  elements p !! (prefix +:+ "-score") = None ->
  updateDetailBar prefix s p = (Returned tt, p).
Proof.
  intros Hmiss. unfold updateDetailBar.
  unfold mbind at 1. unfold M_bind at 1. unfold get.
  destruct Hmiss as [-> | ->]; [reflexivity |].
  destruct (elements p !! (prefix +:+ "-bar")); reflexivity.
Qed.

Lemma updateDetailBar_state prefix s p :
  updateDetailBar prefix s p =
    (Returned tt,
     match elements p !! (prefix +:+ "-bar"), elements p !! (prefix +:+ "-score") with
     | Some _, Some _ =>
         set_elements
           (fun els =>
              alter (bar_rendered s) (prefix +:+ "-bar")
                (alter (set_textContent (pretty s)) (prefix +:+ "-score") els))
           p
     | _, _ => p
     end).
Proof.
  destruct (elements p !! (prefix +:+ "-bar")) as [bar |] eqn:Hbar;
    [destruct (elements p !! (prefix +:+ "-score")) as [value |] eqn:Hval |].
  - apply updateDetailBar_run; [rewrite Hbar | rewrite Hval]; eauto.
  - apply updateDetailBar_missing. right. exact Hval.
  - apply updateDetailBar_missing. left. exact Hbar.
Qed.

Lemma updateDetailBar_frame prefix s p id :
  id <> prefix +:+ "-bar" -> id <> prefix +:+ "-score" ->
  elements (exec (updateDetailBar prefix s) p) !! id = elements p !! id.
Proof.
  intros Hbar Hval. unfold exec. rewrite updateDetailBar_state. cbn [snd].
  destruct (elements p !! (prefix +:+ "-bar")),
    (elements p !! (prefix +:+ "-score")); try reflexivity.
  cbn [elements set_elements].
  rewrite !lookup_alter_ne by congruence. reflexivity.
Qed.

(** X18. [updateDetailBar] never throws and writes nothing but the bar and
    the label of its prefix: every other element is as before, and when
    either of the two is missing from the page it writes nothing at all. *)
Theorem updateDetailBar_writes_its_pair prefix s p :
  result (updateDetailBar prefix s) p = Returned tt /\
  (forall id, id <> prefix +:+ "-bar" -> id <> prefix +:+ "-score" ->
              elements (exec (updateDetailBar prefix s) p) !! id
              = elements p !! id) /\
  (elements p !! (prefix +:+ "-bar") = None \/
   elements p !! (prefix +:+ "-score") = None ->
   exec (updateDetailBar prefix s) p = p).
Proof.
  split; [| split].
  - unfold result. rewrite updateDetailBar_state. reflexivity.
  - intros id. apply updateDetailBar_frame.
  - intros Hmiss. unfold exec. rewrite updateDetailBar_missing by exact Hmiss.
    reflexivity.
Qed.

Lemma leaves_element_bind {A} id (m : M page A) (k : A -> M page unit) :
  leaves_element id m -> (forall a, leaves_element id (k a)) ->
  leaves_element id (m ≫= k).
Proof.
  intros Hm Hk p. specialize (Hm p). unfold exec in *.
  unfold mbind, M_bind. destruct (m p) as [[a | e] q]; cbn [snd] in *.
  - rewrite <- Hm. apply Hk.
  - exact Hm.
Qed.

Lemma leaves_element_write id other f :
  other <> id -> leaves_element id (write_element other f).
Proof.
  intros Hne p. unfold write_element, exec.
  unfold mbind at 1. unfold M_bind at 1. unfold get.
  destruct (elements p !! other); [| reflexivity].
  cbn. apply lookup_alter_ne. exact Hne.
Qed.

Lemma leaves_element_updateDetailBar id prefix s :
  id <> prefix +:+ "-bar" -> id <> prefix +:+ "-score" ->
  leaves_element id (updateDetailBar prefix s).
Proof. intros Hbar Hval p. apply updateDetailBar_frame; assumption. Qed.

Lemma leaves_element_ret id : leaves_element id (mret tt : M page unit).
Proof. intros p. reflexivity. Qed.

(** The part of [updateLongtermScore] after the three writes to the grade
    element does not come back to it. *)
Lemma after_grade_leaves_grade (data : score_data) :
  leaves_element "lt-grade"
    (write_element "lt-score" (set_textContent (pretty (score data))) ;;
     write_element "lt-message" (set_textContent (message data)) ;;
     match details data with
     | Some d =>
         updateDetailBar "lt-loss" (sub_score d "packet_loss") ;;
         updateDetailBar "lt-ping" (sub_score d "ping") ;;
         updateDetailBar "lt-conn" (sub_score d "connection") ;;
         updateDetailBar "lt-jitter" (sub_score d "jitter") ;;
         write_element "lt-stats"
           (set_innerHTML (Stats (record_count data) (hours_analyzed data)
                                 (sub_avg_ms d) (sub_events d)))
     | None => mret tt
     end).
Proof.
  repeat (apply leaves_element_bind;
          [apply leaves_element_write; discriminate | intros _]).
  destruct (details data) as [d |]; [| apply leaves_element_ret].
  repeat (apply leaves_element_bind;
          [apply leaves_element_updateDetailBar; discriminate | intros _]).
  apply leaves_element_write. discriminate.
Qed.

Lemma grade_writes_compose g e :
  classList_add (grade_class g)
    (set_className ["score-grade"] (set_textContent g e)) = grade_rendered g e.
Proof.
  unfold classList_add, set_className, set_textContent, grade_rendered,
    tokens_add. cbn [className textContent style_width innerHTML].
  destruct (decide (grade_class g ∈ ["score-grade"])) as [Hin | _];
    [| reflexivity].
  apply list_elem_of_singleton in Hin.
  contradiction (grade_class_not_score_grade g).
Qed.

(** X19. Whenever the grade element exists and the response parses, the
    grade element ends up with the text of the new grade and with exactly
    the two classes [score-grade] and the class of that grade, whatever
    classes it carried before and whatever happens to the rest of the
    panel (elements missing, details absent). *)
Theorem grade_element_shows_latest_grade data p e :
  elements p !! "lt-grade" = Some e ->
  elements (exec (updateLongtermScore_resume (Body data)) p) !! "lt-grade"
    = Some (grade_rendered (grade data) e).
Proof.
  intros He. unfold exec, updateLongtermScore_resume, try_catch, await.
  unfold mbind at 1. unfold M_bind at 1. unfold mret at 1. unfold M_ret at 1.
  rewrite write_element_bind by (rewrite He; eauto).
  rewrite write_element_bind
    by (cbn [elements set_elements]; rewrite lookup_alter_eq, He; eauto).
  rewrite write_element_bind
    by (cbn [elements set_elements]; rewrite !lookup_alter_eq, He; eauto).
  rewrite !set_elements_twice.
  match goal with
  | |- context [?rest (set_elements ?F p)] =>
      pose proof (after_grade_leaves_grade data (set_elements F p)) as Hrest;
      unfold exec in Hrest;
      destruct (rest (set_elements F p)) as [[[] | err] q]
  end; cbn [snd] in *; cbn [elements console_error modify snd];
    rewrite Hrest; cbn [elements set_elements];
    rewrite !lookup_alter_eq, He; cbn [fmap option_fmap option_map];
    rewrite grade_writes_compose; reflexivity.
Qed.

Lemma grade_element_shows_latest_grade_on_panel :
  elements (exec (updateLongtermScore_resume (Body (no_details "B+" 78 "ok")))
                 panel_page) !! "lt-grade"
    = Some {| className := ["score-grade"; "grade-b"]; textContent := "B+";
              style_width := ""; innerHTML := None |}.
Proof.
  apply (grade_element_shows_latest_grade (no_details "B+" 78 "ok")
           panel_page blank).
  reflexivity.
Defined.

Lemma write_element_missing_bind id f (k : M page unit) p :
  elements p !! id = None ->
  (write_element id f ;; k) p =
    (Threw (TypeError "getElementById(...) is null"), p).
Proof.
  intros Hnone. unfold mbind at 1. unfold M_bind at 1. unfold write_element.
  unfold mbind at 1. unfold M_bind at 1. unfold get. rewrite Hnone.
  reflexivity.
Qed.

Lemma resume_missing_score data p :
  elements p !! "lt-score" = None ->
  updateLongtermScore_resume (Body data) p =
    (Returned tt,
     {| charts := charts p; currentPeriod := currentPeriod p;
        elements := alter (grade_rendered (grade data)) "lt-grade" (elements p);
        buttons := buttons p; requests := requests p;
        console := console p ++ [missing_element_error] |}).
Proof.
  intros Hscore. unfold updateLongtermScore_resume, try_catch, await.
  unfold mbind at 1. unfold M_bind at 1. unfold mret at 1. unfold M_ret at 1.
  destruct (elements p !! "lt-grade") as [e |] eqn:He.
  - rewrite write_element_bind by (rewrite He; eauto).
    rewrite write_element_bind
      by (cbn [elements set_elements]; rewrite lookup_alter_eq, He; eauto).
    rewrite write_element_bind
      by (cbn [elements set_elements]; rewrite !lookup_alter_eq, He; eauto).
    rewrite !set_elements_twice.
    rewrite write_element_missing_bind
      by (cbn [elements set_elements];
          rewrite !lookup_alter_ne by discriminate; exact Hscore).
    unfold console_error, modify, set_elements.
    cbn [charts currentPeriod elements buttons requests console].
    f_equal. f_equal.
    rewrite !alter_alter_eq.
    apply alter_ext. intros x _. cbn. apply grade_writes_compose.
  - rewrite write_element_missing_bind by exact He.
    unfold console_error, modify.
    f_equal. f_equal.
    apply map_eq. intros k. rewrite lookup_alter.
    destruct (decide ("lt-grade" = k)) as [<- | _]; [rewrite He |]; reflexivity.
Qed.

(** X20. The panel is written element by element with nothing rolled back.
    When the score element [lt-score] is missing from the page, the update
    ends in one logged [TypeError]; the grade element, when there is one,
    already shows the new grade, and no other element is written. *)
Theorem panel_update_stops_at_missing_score data p :
  elements p !! "lt-score" = None ->
  elements (exec (updateLongtermScore_resume (Body data)) p) =
    alter (grade_rendered (grade data)) "lt-grade" (elements p) /\
  console (exec (updateLongtermScore_resume (Body data)) p) =
    console p ++ [missing_element_error].
Proof.
  intros Hscore. unfold exec. rewrite resume_missing_score by exact Hscore.
  split; reflexivity.
Qed.

Lemma panel_update_stops_at_missing_score_grade_only :
  elements (exec (updateLongtermScore_resume (Body (no_details "A" 95 "fine")))
                 (load {["lt-grade" := blank]} [])) =
    {["lt-grade" := grade_rendered "A" blank]} /\
  console (exec (updateLongtermScore_resume (Body (no_details "A" 95 "fine")))
                 (load {["lt-grade" := blank]} [])) = [missing_element_error].
Proof.
  destruct (panel_update_stops_at_missing_score (no_details "A" 95 "fine")
              (load {["lt-grade" := blank]} [])) as [Hels Hcons].
  - reflexivity.
  - split; [| exact Hcons]. rewrite Hels. reflexivity.
Defined.

Lemma resume_without_details data p :
  is_Some (elements p !! "lt-grade") ->
  is_Some (elements p !! "lt-score") ->
  is_Some (elements p !! "lt-message") ->
  details data = None ->
  updateLongtermScore_resume (Body data) p =
    (Returned tt,
     set_elements
       (fun els =>
          alter (set_textContent (message data)) "lt-message"
            (alter (set_textContent (pretty (score data))) "lt-score"
               (alter (grade_rendered (grade data)) "lt-grade" els))) p).
Proof.
  intros Hg Hs Hm Hd. unfold updateLongtermScore_resume, try_catch, await.
  unfold mbind at 1. unfold M_bind at 1. unfold mret at 1. unfold M_ret at 1.
  rewrite Hd.
  rewrite write_element_bind by exact Hg.
  rewrite write_element_bind
    by (cbn [elements set_elements]; rewrite lookup_alter_is_Some; exact Hg).
  rewrite write_element_bind
    by (cbn [elements set_elements]; rewrite !lookup_alter_is_Some; exact Hg).
  rewrite write_element_bind
    by (cbn [elements set_elements]; rewrite !lookup_alter_is_Some; exact Hs).
  rewrite write_element_bind
    by (cbn [elements set_elements]; rewrite !lookup_alter_is_Some; exact Hm).
  rewrite !set_elements_twice. unfold mret, M_ret.
  f_equal. unfold set_elements. f_equal. f_equal. f_equal.
  rewrite !alter_alter_eq.
  apply alter_ext. intros x _. cbn. apply grade_writes_compose.
Qed.

(** X21. A response without details updates the grade, the score and the
    message and nothing else: on a page that has these three elements no
    other element is written (detail bars and statistics keep what they
    showed) and nothing is logged. *)
Theorem response_without_details_writes_three data p :
  is_Some (elements p !! "lt-grade") ->
  is_Some (elements p !! "lt-score") ->
  is_Some (elements p !! "lt-message") ->
  details data = None ->
  elements (exec (updateLongtermScore_resume (Body data)) p) =
    alter (set_textContent (message data)) "lt-message"
      (alter (set_textContent (pretty (score data))) "lt-score"
         (alter (grade_rendered (grade data)) "lt-grade" (elements p))) /\
  console (exec (updateLongtermScore_resume (Body data)) p) = console p.
Proof.
  intros Hg Hs Hm Hd. unfold exec.
  rewrite resume_without_details by assumption.
  split; reflexivity.
Qed.

Lemma response_without_details_writes_three_on_panel :
  elements (exec (updateLongtermScore_resume (Body (no_details "C" 61 "so-so")))
                 panel_page) !! "lt-ping-bar" = Some blank /\
  console (exec (updateLongtermScore_resume (Body (no_details "C" 61 "so-so")))
                 panel_page) = [].
Proof.
  destruct (response_without_details_writes_three (no_details "C" 61 "so-so")
              panel_page) as [Hels Hcons].
  - vm_compute. eauto.
  - vm_compute. eauto.
  - vm_compute. eauto.
  - reflexivity.
  - split; [| exact Hcons]. rewrite Hels. reflexivity.
Defined.
End PanelWrites.

(** ** More on the bar colour *)

Section ColourOrder.
Import Charts.

Lemma colour_of_value (v : Q) :
  exists a, (a == v)%Q /\
    lossChart_backgroundColor (Some v) =
      (if Qlt_le_dec 5 a then "rgba(239, 68, 68, 0.8)"
       else if Qlt_le_dec 1 a then "rgba(245, 158, 11, 0.8)"
       else if Qlt_le_dec 0 a then "rgba(245, 158, 11, 0.5)"
       else "rgba(16, 185, 129, 0.3)").
Proof.
  exists (raw_or_0 (Some v)). split; [apply raw_or_0_some | reflexivity].
Qed.

(** X22. The bar colour never gets milder as the loss grows: for v <= w the
    colour of w ranks at least as severe as the colour of v (nominal, low,
    medium, high), and two values that are equal as numbers get the same
    colour. *)
Theorem loss_colour_monotone (v w : Q) :
  (v <= w)%Q ->
  (severity (lossChart_backgroundColor (Some v)) <=
   severity (lossChart_backgroundColor (Some w)))%nat /\
  ((w <= v)%Q ->
   lossChart_backgroundColor (Some v) = lossChart_backgroundColor (Some w)).
Proof.
  intros Hvw.
  destruct (colour_of_value v) as (a & Ha & ->).
  destruct (colour_of_value w) as (b & Hb & ->).
  rewrite <- Ha, <- Hb in Hvw.
  assert (Hback : (w <= v)%Q -> (b <= a)%Q)
    by (intros H; rewrite Ha, Hb; exact H).
  destruct (Qlt_le_dec 5 a); destruct (Qlt_le_dec 5 b);
    destruct (Qlt_le_dec 1 a); destruct (Qlt_le_dec 1 b);
    destruct (Qlt_le_dec 0 a); destruct (Qlt_le_dec 0 b);
    (split; [cbn; try lia; exfalso; lra
            | intros Hwv; specialize (Hback Hwv);
              try reflexivity; exfalso; lra]).
Qed.

Lemma loss_colour_monotone_half_three :
  (severity (lossChart_backgroundColor (Some (1 # 2)%Q)) <=
   severity (lossChart_backgroundColor (Some 3%Q)))%nat.
Proof.
  apply (loss_colour_monotone (1 # 2)%Q 3%Q).
  unfold Qle; simpl; lia.
Defined.
End ColourOrder.

(** ** Requests per poll *)

Section RequestsPerPoll.
Import Charts.

Lemma keeps_requests_bind {A B} (m : M page A) (k : A -> M page B) :
  keeps_requests m -> (forall a, keeps_requests (k a)) ->
  keeps_requests (m ≫= k).
Proof.
  intros Hm Hk p. specialize (Hm p). unfold exec in *.
  unfold mbind, M_bind. destruct (m p) as [[a | e] q]; cbn [snd] in *.
  - rewrite <- Hm. apply Hk.
  - exact Hm.
Qed.

Lemma keeps_requests_try (body : M page unit) msg :
  keeps_requests body -> keeps_requests (try_catch body (console_error msg)).
Proof.
  intros Hb p. specialize (Hb p). unfold exec, try_catch in *.
  destruct (body p) as [[[] | e] q]; cbn [snd] in *; exact Hb.
Qed.

Lemma keeps_requests_await {A} (r : settled A) : keeps_requests (await r).
Proof. intros p. destruct r; reflexivity. Qed.

Lemma keeps_requests_set_charts f : keeps_requests (modify (set_charts f)).
Proof. intros p. reflexivity. Qed.

Lemma keeps_requests_assign_data name i v : keeps_requests (assign_data name i v).
Proof.
  intros p. unfold assign_data, exec.
  unfold mbind at 1. unfold M_bind at 1. unfold get.
  destruct (charts p !! name ≫= (fun c => datasets c !! i)); reflexivity.
Qed.

Lemma keeps_requests_guard name data body :
  keeps_requests body -> keeps_requests (if_chart_and_samples name data body).
Proof.
  intros Hb p. unfold if_chart_and_samples, exec.
  unfold mbind at 1. unfold M_bind at 1. unfold get.
  destruct (charts p !! name); [| reflexivity].
  unfold timestamps_length.
  destruct (data !! "timestamps") as [ts |]; [| reflexivity].
  unfold mbind, M_bind, mret, M_ret, when.
  destruct (0 <? length ts)%nat; [apply Hb | reflexivity].
Qed.

Lemma keeps_requests_write id f : keeps_requests (write_element id f).
Proof.
  intros p. unfold write_element, exec.
  unfold mbind at 1. unfold M_bind at 1. unfold get.
  destruct (elements p !! id); reflexivity.
Qed.

Lemma keeps_requests_updateDetailBar prefix s :
  keeps_requests (updateDetailBar prefix s).
Proof.
  intros p. unfold exec. rewrite updateDetailBar_state. cbn [snd].
  destruct (elements p !! (prefix +:+ "-bar")),
    (elements p !! (prefix +:+ "-score")); reflexivity.
Qed.

Ltac quiet_block :=
  apply keeps_requests_guard;
  repeat (apply keeps_requests_bind; [| intros _]);
  first [ apply keeps_requests_set_charts | apply keeps_requests_assign_data ].

Lemma updateCharts_resume_quiet r : keeps_requests (updateCharts_resume r).
Proof.
  unfold updateCharts_resume. apply keeps_requests_try.
  apply keeps_requests_bind; [apply keeps_requests_await | intros data].
  apply keeps_requests_bind; [| intros _]; quiet_block.
Qed.

Lemma updateHistoryCharts_resume_quiet r :
  keeps_requests (updateHistoryCharts_resume r).
Proof.
  unfold updateHistoryCharts_resume. apply keeps_requests_try.
  apply keeps_requests_bind; [apply keeps_requests_await | intros data].
  repeat (apply keeps_requests_bind; [| intros _]); quiet_block.
Qed.

Lemma updateLongtermScore_resume_quiet r :
  keeps_requests (updateLongtermScore_resume r).
Proof.
  unfold updateLongtermScore_resume. apply keeps_requests_try.
  apply keeps_requests_bind; [apply keeps_requests_await | intros data].
  repeat (apply keeps_requests_bind; [apply keeps_requests_write | intros _]).
  destruct (details data) as [d |]; [| intros p; reflexivity].
  repeat (apply keeps_requests_bind;
          [apply keeps_requests_updateDetailBar | intros _]).
  apply keeps_requests_write.
Qed.

Lemma start_then_resume (start resume : M page unit) p q :
  start p = (Returned tt, q) ->
  exec (start ;; resume) p = exec resume q.
Proof.
  intros Hs. unfold exec. unfold mbind, M_bind. rewrite Hs. reflexivity.
Qed.

Lemma history_start_state period p :
  updateHistoryCharts_start period p =
    (Returned tt,
     exec (fetch ("/api/long-term-history?period=" +:+
                  currentPeriod (exec (adopt_period period) p)))
          (exec (adopt_period period) p)) /\
  updateLongtermScore_start period p =
    (Returned tt,
     exec (fetch ("/api/longterm-score?period=" +:+
                  currentPeriod (exec (adopt_period period) p)))
          (exec (adopt_period period) p)).
Proof.
  unfold updateHistoryCharts_start, updateLongtermScore_start, adopt_period.
  destruct period as [per |]; [destruct (String.eqb per "") |];
    split; reflexivity.
Qed.

Lemma adopt_period_requests period p :
  requests (exec (adopt_period period) p) = requests p.
Proof.
  unfold adopt_period.
  destruct period as [per |]; [destruct (String.eqb per "") |]; reflexivity.
Qed.

Lemma fetch_requests url q :
  requests (exec (fetch url) q) = requests q ++ [url].
Proof. reflexivity. Qed.

(** X23. Every poll sends exactly one request, however it ends: a failed
    fetch, an unreadable body or a missing element is logged and not retried
    within the tick.  The long-term requests carry the period that is active
    once the period argument, if any, has been adopted. *)
Theorem each_poll_sends_one_request p period
    (r : settled payload) (r' : settled score_data) :
  requests (exec (updateCharts r) p) = requests p ++ ["/api/history?seconds=60"] /\
  requests (exec (updateHistoryCharts period r) p) =
    requests p ++ ["/api/long-term-history?period=" +:+
                   currentPeriod (exec (adopt_period period) p)] /\
  requests (exec (updateLongtermScore period r') p) =
    requests p ++ ["/api/longterm-score?period=" +:+
                   currentPeriod (exec (adopt_period period) p)].
Proof.
  destruct (history_start_state period p) as [Hh Hs].
  split; [| split].
  - unfold updateCharts.
    rewrite (start_then_resume _ _ p _ (updateCharts_start_run p)).
    rewrite updateCharts_resume_quiet. reflexivity.
  - unfold updateHistoryCharts. rewrite (start_then_resume _ _ p _ Hh).
    rewrite updateHistoryCharts_resume_quiet, fetch_requests.
    rewrite adopt_period_requests. reflexivity.
  - unfold updateLongtermScore. rewrite (start_then_resume _ _ p _ Hs).
    rewrite updateLongtermScore_resume_quiet, fetch_requests.
    rewrite adopt_period_requests. reflexivity.
Qed.
End RequestsPerPoll.
